(** * Trip statistics of the tracking-history page

    The history page (HistoryPage, [calculateStats]) reduces the tracking
    records of one vehicle to four figures: the number of records, the mean
    and the maximum of the reported speeds, and the length of the path through
    the records, pair by pair, by the haversine formula.

    A JavaScript [number] is an IEEE 754 binary64 value.  The function is
    embedded once, over the interface [Number] of the operations it uses, and
    read in two number systems:

    - [binary64]: Rocq's primitive floats, whose [+ - * /] and [sqrt] are the
      IEEE operations of the engine.  [Math.sin], [Math.cos] and [Math.atan2]
      are "implementation-approximated" in ECMAScript: the engine's choice is
      the parameter [Libm].
    - [exact]: the real numbers, the reading in which the haversine formula
      is stated, without rounding.

    An equality or an order between computed numbers is checked in
    [binary64] wherever it does not depend on the engine's trigonometric
    functions beyond the values ECMAScript prescribes.  What relates a result
    to a mathematical quantity (a mean, a great-circle distance), and what
    would depend on the engine, is stated in [exact].  Where a result is a
    particular binary64 number that the trigonometric functions decide, it is
    evaluated on [taylor_libm], an engine whose values at the arguments
    reached are the correctly rounded ones. *)

From Stdlib Require Import Floats.
From Stdlib Require Import List String ZArith Lia Bool Permutation.
From Stdlib Require Import Reals Lra.
Import ListNotations.

Set Implicit Arguments.
#[local] Set Warnings "-inexact-float".

(** ** The numbers of the program *)

Class Number (A : Type) : Type := {
  of_Z : Z -> A;                (* integer literals, array lengths *)
  add : A -> A -> A;
  sub : A -> A -> A;
  mul : A -> A -> A;
  div : A -> A -> A;
  Math_PI : A;
  Math_sin : A -> A;
  Math_cos : A -> A;
  Math_sqrt : A -> A;
  Math_atan2 : A -> A -> A;     (* Math.atan2(y, x) *)
  Math_max : list A -> A        (* Math.max(...values) *)
}.

Declare Scope js_scope.
Delimit Scope js_scope with js.
Infix "+" := add : js_scope.
Infix "-" := sub : js_scope.
Infix "*" := mul : js_scope.
Infix "/" := div : js_scope.

(** ** HistoryPage: records, state, [calculateStats] *)

Section HistoryPage.
Context {A : Type} {num : Number A}.

Record Vehicle : Type := {
  vehicle_id : string;
  license_plate : string;
  brand : string;
  model : string
}.

Record TrackingRecord : Type := {
  id : string;
  latitude : A;
  longitude : A;
  speed : A;
  timestamp : string;
  heading : option A
}.

Record Stats : Type := {
  totalRecords : nat;
  avgSpeed : A;
  maxSpeed : A;
  totalDistance : A
}.

(** The component's state: one field per [useState] hook. *)
Record State : Type := {
  vehicles : list Vehicle;
  selectedVehicle : string;
  history : list TrackingRecord;
  dateRange : string * string;
  loading : bool;
  stats : Stats
}.

Definition setHistory (h : list TrackingRecord) (st : State) : State :=
  {| vehicles := vehicles st; selectedVehicle := selectedVehicle st;
     history := h; dateRange := dateRange st; loading := loading st;
     stats := stats st |}.

Definition setStats (s : Stats) (st : State) : State :=
  {| vehicles := vehicles st; selectedVehicle := selectedVehicle st;
     history := history st; dateRange := dateRange st; loading := loading st;
     stats := s |}.

(** The body of the [for] loop at index [i], for the pair [records[i]]
    (point 1), [records[i - 1]] (point 2): first the local [a], *)
Definition haversineA (ri ri1 : TrackingRecord) : A :=
  (let lat1 := latitude ri in
   let lon1 := longitude ri in
   let lat2 := latitude ri1 in
   let lon2 := longitude ri1 in
   let dLat := ((lat2 - lat1) * Math_PI) / of_Z 180 in
   let dLon := ((lon2 - lon1) * Math_PI) / of_Z 180 in
   Math_sin (dLat / of_Z 2) * Math_sin (dLat / of_Z 2) +
   Math_cos ((lat1 * Math_PI) / of_Z 180) *
     Math_cos ((lat2 * Math_PI) / of_Z 180) *
     Math_sin (dLon / of_Z 2) *
     Math_sin (dLon / of_Z 2))%js.

(** then [R * c], the distance added for the pair. *)
Definition pairDistance (ri ri1 : TrackingRecord) : A :=
  (let R := of_Z 6371 in
   let a := haversineA ri ri1 in
   let c := of_Z 2 * Math_atan2 (Math_sqrt a) (Math_sqrt (of_Z 1 - a)) in
   R * c)%js.

(** One turn of the loop: [totalDistance += R * c].  [dflt] stands for the
    [undefined] of an index out of range, which the loop never reads. *)
Definition loopStep (records : list TrackingRecord) (dflt : TrackingRecord)
    (totalDistance : A) (i : nat) : A :=
  (totalDistance + pairDistance (nth i records dflt) (nth (i - 1) records dflt))%js.

Definition calculateStats (records : list TrackingRecord) (st : State) : State :=
  match records with
  | [] =>
      setStats {| totalRecords := 0; avgSpeed := of_Z 0; maxSpeed := of_Z 0;
                  totalDistance := of_Z 0 |} st
  | r0 :: _ =>
      let speeds := map speed records in
      let avgSpeed :=
        (fold_left (fun a b => a + b) speeds (of_Z 0)
           / of_Z (Z.of_nat (List.length speeds)))%js in
      let maxSpeed := Math_max speeds in
      (* for (let i = 1; i < records.length; i++) *)
      let totalDistance :=
        fold_left (loopStep records r0) (seq 1 (List.length records - 1)) (of_Z 0) in
      setStats {| totalRecords := List.length records; avgSpeed := avgSpeed;
                  maxSpeed := maxSpeed; totalDistance := totalDistance |} st
  end.

(** The success path of [fetchHistory]: the rows of the query are stored
    and summarised. *)
Definition fetchHistory_ok (records : list TrackingRecord) (st : State) : State :=
  calculateStats records (setHistory records st).

(** The loop seen as a walk along the array: [prev] is [records[i - 1]]. *)
Fixpoint walk (prev : TrackingRecord) (rest : list TrackingRecord) (total : A) : A :=
  match rest with
  | [] => total
  | r :: rest' => walk r rest' (total + pairDistance r prev)%js
  end.

End HistoryPage.

Arguments Vehicle : clear implicits.
Arguments TrackingRecord : clear implicits.
Arguments Stats : clear implicits.
Arguments State : clear implicits.

(** ** binary64: the numbers of the engine *)

Record Libm : Type := {
  libm_sin : float -> float;
  libm_cos : float -> float;
  libm_atan2 : float -> float -> float
}.

Module Binary64.

(** An integer literal or an array length as a number. *)
Definition of_int (z : Z) : float :=
  match z with
  | Zneg p => PrimFloat.opp (PrimFloat.of_uint63 (Uint63.of_Z (Zpos p)))
  | _ => PrimFloat.of_uint63 (Uint63.of_Z z)
  end.

Definition is_pos_zero (x : float) : bool :=
  match PrimFloat.classify x with PZero => true | _ => false end.

Definition is_neg_zero (x : float) : bool :=
  match PrimFloat.classify x with NZero => true | _ => false end.

(** One turn of the loop of [Math.max] (ECMAScript, Math.max): a NaN ends
    the call with NaN; [+0] replaces a highest [-0]; a greater number
    replaces the highest. *)
Definition max_step (highest number : float) : float :=
  if PrimFloat.is_nan highest || PrimFloat.is_nan number then PrimFloat.nan
  else if is_pos_zero number && is_neg_zero highest then number
  else if PrimFloat.ltb highest number then number
  else highest.

Definition max (values : list float) : float :=
  fold_left max_step values PrimFloat.neg_infinity.

(* Math.PI = 3.141592653589793 *)
Definition PI : float := 0x1.921fb54442d18p+1%float.

(** [max_step] on the specification's floats. *)
Definition sf_is_nan (x : spec_float) : bool :=
  match x with S754_nan => true | _ => false end.

Definition sf_max_step (h n : spec_float) : spec_float :=
  if sf_is_nan h || sf_is_nan n then S754_nan
  else match n, h with
       | S754_zero false, S754_zero true => n
       | _, _ => if SFltb h n then n else h
       end.

Definition not_nan (x : float) : Prop := PrimFloat.is_nan x = false.




(** A number that is not below zero: NaN, a zero of either sign, a positive
    number or [+Infinity]. *)
Definition not_negative (x : float) : Prop := PrimFloat.ltb x 0%float = false.

Definition sf_not_negative (x : spec_float) : Prop :=
  match x with
  | S754_finite true _ _ | S754_infinity true => False
  | _ => True
  end.


(** The input contract on the coordinates of a sample: a latitude from -90
    to 90 and a longitude from -180 to 180, in degrees. *)
Definition in_contract (r : TrackingRecord float) : Prop :=
  PrimFloat.leb (-90)%float (latitude r) = true
  /\ PrimFloat.leb (latitude r) 90%float = true
  /\ PrimFloat.leb (-180)%float (longitude r) = true
  /\ PrimFloat.leb (longitude r) 180%float = true.

End Binary64.

Definition binary64 (m : Libm) : Number float := {|
  of_Z := Binary64.of_int;
  add := PrimFloat.add;
  sub := PrimFloat.sub;
  mul := PrimFloat.mul;
  div := PrimFloat.div;
  Math_PI := Binary64.PI;
  Math_sin := libm_sin m;
  Math_cos := libm_cos m;
  Math_sqrt := PrimFloat.sqrt;
  Math_atan2 := libm_atan2 m;
  Math_max := Binary64.max
|}.


(** An odd sine: [Math.sin(-x)] is [-Math.sin(x)]. *)
Definition OddSine (m : Libm) : Prop :=
  forall x, libm_sin m (PrimFloat.opp x) = PrimFloat.opp (libm_sin m x).

(** An arctangent that is not negative in the first quadrant: for [y] and
    [x] not below zero, [Math.atan2(y, x)] is not below zero.  The pair
    [(-0, -0)] is left out: there ECMAScript prescribes [-pi].  For the
    other pairs it prescribes [+0], [-0], [pi / 2], [pi / 4], [pi] or NaN
    where a zero, an infinity or NaN is involved, and the angle of a point of
    the first quadrant otherwise. *)
Definition AtanNotNegative (m : Libm) : Prop :=
  forall y x, Binary64.not_negative y -> Binary64.not_negative x ->
    Binary64.is_neg_zero y && Binary64.is_neg_zero x = false ->
    Binary64.not_negative (libm_atan2 m y x).

(** The approximations of the first order at angle 0 (the sine of [x] is
    [x], the cosine is 1, the angle of [(x, y)] is [y / |x|]): a crude engine
    that has the properties above. *)
Definition small_angle_libm : Libm := {|
  libm_sin := fun x => x;
  libm_cos := fun _ => 1%float;
  libm_atan2 := fun y x => PrimFloat.div y (PrimFloat.abs x)
|}.

(** Sine and cosine by the first eight terms of their Taylor series, after
    the reduction of an angle of magnitude 1 or more by a quarter turn (pi / 2
    in two parts, as a library does); the angle of [(x, y)] is taken as the
    arctangent of [y / |x|], by the terms to the degree 11.  An engine for
    angles up to a right angle and a little more.  At the arguments that the
    inputs [Inputs.creep] and [Inputs.antipodes] reach, its values are the
    correctly rounded sine, cosine and arctangent. *)
Module Taylor.
Local Open Scope float_scope.

(* 1 - z / d1 * (1 - z / d2 * (1 - ...)) *)
Definition series (z : float) (denominators : list float) : float :=
  fold_right (fun d rest => 1 - z / d * rest) 1 denominators.

Definition sin_near_0 (x : float) : float :=
  x * series (x * x) [6; 20; 42; 72; 110; 156; 210; 272].

Definition cos_near_0 (x : float) : float :=
  series (x * x) [2; 12; 30; 56; 90; 132; 182; 240].

(* pi / 2 = quarter_turn + quarter_turn_tail + ... *)
Definition quarter_turn : float := 0x1.921fb54442d18p+0.
Definition quarter_turn_tail : float := 0x1.1a62633145c07p-54.

Definition sin (x : float) : float :=
  if PrimFloat.ltb (PrimFloat.abs x) 1 then sin_near_0 x
  else if PrimFloat.ltb 0 x
       then cos_near_0 (x - quarter_turn - quarter_turn_tail)
       else - cos_near_0 (x + quarter_turn + quarter_turn_tail).

Definition cos (x : float) : float :=
  if PrimFloat.ltb (PrimFloat.abs x) 1 then cos_near_0 x
  else if PrimFloat.ltb 0 x
       then - sin_near_0 (x - quarter_turn - quarter_turn_tail)
       else sin_near_0 (x + quarter_turn + quarter_turn_tail).

Definition atan (r : float) : float :=
  let w := r * r in
  r * (1 - w * (1 / 3 - w * (1 / 5 - w * (1 / 7 - w * (1 / 9 - w / 11))))).

Definition atan2 (y x : float) : float := atan (y / PrimFloat.abs x).

End Taylor.

Definition taylor_libm : Libm := {|
  libm_sin := Taylor.sin;
  libm_cos := Taylor.cos;
  libm_atan2 := Taylor.atan2
|}.

(** ** exact: the same text over the real numbers *)

Module Exact.

(** The two-argument arctangent. *)
Definition atan2 (y x : R) : R :=
  match total_order_T 0 x with
  | inleft (left _) => atan (y / x)                       (* 0 < x *)
  | inleft (right _) =>                                   (* x = 0 *)
      match total_order_T 0 y with
      | inleft (left _) => PI / 2
      | inleft (right _) => 0
      | inright _ => - (PI / 2)
      end
  | inright _ =>                                          (* x < 0 *)
      if Rle_dec 0 y then atan (y / x) + PI else atan (y / x) - PI
  end%R.

(** The greatest of the values.  The real line has no [-Infinity], the
    value of [Math.max()] of nothing; [calculateStats] takes the maximum
    of the speeds of a non-empty array only. *)
Definition max (values : list R) : R :=
  match values with
  | [] => 0%R
  | v :: rest => fold_left Rmax rest v
  end.

End Exact.

Definition exact : Number R := {|
  of_Z := IZR;
  add := Rplus;
  sub := Rminus;
  mul := Rmult;
  div := Rdiv;
  Math_PI := PI;
  Math_sin := sin;
  Math_cos := cos;
  Math_sqrt := sqrt;
  Math_atan2 := Exact.atan2;
  Math_max := Exact.max
|}.

(** ** The specification's reading, over the real numbers *)

Module Spec.
Local Open Scope R_scope.

Definition radians (degrees : R) : R := degrees * PI / 180.

(** The haversine formula, Earth radius 6371 km. *)
Definition haversine_a (lat1 lon1 lat2 lon2 : R) : R :=
  let phi1 := radians lat1 in
  let phi2 := radians lat2 in
  let dphi := phi2 - phi1 in
  let dlambda := radians lon2 - radians lon1 in
  Rsqr (sin (dphi / 2)) + cos phi1 * cos phi2 * Rsqr (sin (dlambda / 2)).

Definition haversine (lat1 lon1 lat2 lon2 : R) : R :=
  let a := haversine_a lat1 lon1 lat2 lon2 in
  let c := 2 * Exact.atan2 (sqrt a) (sqrt (1 - a)) in
  6371 * c.

Definition distance (p q : TrackingRecord R) : R :=
  haversine (latitude p) (longitude p) (latitude q) (longitude q).

(** The sum of the distances of the pairs of neighbours of a track. *)
Fixpoint pathLength (track : list (TrackingRecord R)) : R :=
  match track with
  | p :: (q :: _) as rest => distance p q + pathLength rest
  | _ => 0
  end.

(** Timestamps are ISO 8601 strings of one UTC offset, as the store returns
    them: their order in time is the order of the strings. *)
Definition earlier_or_same (p q : TrackingRecord R) : bool :=
  String.leb (timestamp p) (timestamp q).

Fixpoint insertByTime (r : TrackingRecord R) (sorted : list (TrackingRecord R))
    : list (TrackingRecord R) :=
  match sorted with
  | [] => [r]
  | x :: rest =>
      if earlier_or_same r x then r :: sorted else x :: insertByTime r rest
  end.

(** The samples ordered by timestamp, oldest first. *)
Definition chronological (records : list (TrackingRecord R)) : list (TrackingRecord R) :=
  fold_right insertByTime [] records.

(** The distance over the pairs of samples adjacent in time. *)
Definition temporalDistance (records : list (TrackingRecord R)) : R :=
  pathLength (chronological records).

Definition sum (values : list R) : R := fold_right Rplus 0 values.

Definition mean (values : list R) : R := sum values / INR (List.length values).

Definition is_maximum (m : R) (values : list R) : Prop :=
  In m values /\ forall v, In v values -> v <= m.

(** The input contract on a sample's coordinates, in degrees. *)
Definition in_contract (r : TrackingRecord R) : Prop :=
  -90 <= latitude r <= 90 /\ -180 <= longitude r <= 180.

End Spec.

(** ** Inputs of the scenarios *)

Module Inputs.
Local Open Scope string_scope.

Definition sample {A : Type} (lat lon sp : A) (ts : string) : TrackingRecord A :=
  {| id := ""; latitude := lat; longitude := lon; speed := sp;
     timestamp := ts; heading := None |}.

Definition initial {A : Type} {num : Number A} : State A :=
  {| vehicles := []; selectedVehicle := ""; history := [];
     dateRange := ("2024-04-24", "2024-05-01"); loading := true;
     stats := {| totalRecords := 0; avgSpeed := of_Z 0; maxSpeed := of_Z 0;
                 totalDistance := of_Z 0 |} |}.

(** Three samples of a vehicle at a steady 10.8 km/h. *)
Definition steady : list (TrackingRecord float) :=
  [ sample (-23.5505) (-46.6333) 10.8 "2024-05-01T12:02:00+00:00";
    sample (-23.5505) (-46.6333) 10.8 "2024-05-01T12:01:00+00:00";
    sample (-23.5505) (-46.6333) 10.8 "2024-05-01T12:00:00+00:00" ]%float.

(** Speeds 0.1, 0.2, 0.3, newest first. *)
Definition crawl : list (TrackingRecord float) :=
  [ sample (-23.5505) (-46.6333) 0.1 "2024-05-01T12:02:00+00:00";
    sample (-23.5505) (-46.6333) 0.2 "2024-05-01T12:01:00+00:00";
    sample (-23.5505) (-46.6333) 0.3 "2024-05-01T12:00:00+00:00" ]%float.


(** Four samples on the equator, newest first: the vehicle creeps from
    longitude 0 to 4.5e-17 and 9e-17 degrees (5e-15 km each time), then is at
    longitude 1 degree. *)
Definition creep : list (TrackingRecord float) :=
  [ sample 0 1 40 "2024-05-01T12:03:00+00:00";
    sample 0 9e-17 0 "2024-05-01T12:02:00+00:00";
    sample 0 4.5e-17 0 "2024-05-01T12:01:00+00:00";
    sample 0 0 0 "2024-05-01T12:00:00+00:00" ]%float.

(** Two samples inside the contract, newest first: 8 degrees north on the
    meridian of Greenwich, then the opposite point of the globe, 8 degrees
    south on the meridian of 180 degrees. *)
Definition antipodes : list (TrackingRecord float) :=
  [ sample (-8) 180 0 "2024-05-01T12:01:00+00:00";
    sample 8 0 0 "2024-05-01T12:00:00+00:00" ]%float.

(** Scenario B of the specification, newest first as the query returns it. *)
Definition scenario_B : list (TrackingRecord R) :=
  [ sample 0 1 40 "2024-05-01T12:01:00+00:00";
    sample 0 0 40 "2024-05-01T12:00:00+00:00" ]%R.

(** A vehicle that stands at (0, 0) at 10:00 and 11:00 and is at (0, 1) at
    12:00, with the three rows stored out of time order. *)
Definition shuffled : list (TrackingRecord R) :=
  [ sample 0 0 0 "2024-05-01T10:00:00+00:00";
    sample 0 1 40 "2024-05-01T12:00:00+00:00";
    sample 0 0 0 "2024-05-01T11:00:00+00:00" ]%R.

End Inputs.

(** ** Dates (ECMAScript, Date objects)

    The part of [Date] that [fetchHistory] uses.  Every number involved is an
    integer far below 2^53, on which the arithmetic of binary64 is exact:
    time values are modelled in [Z]. *)

Module Date.
Local Open Scope Z_scope.

Definition msPerDay : Z := 86400000.
Definition msPerHour : Z := 3600000.
Definition msPerMinute : Z := 60000.
Definition msPerSecond : Z := 1000.

(** A time value: the milliseconds since 1970-01-01T00:00:00Z, or [None] for
    the NaN of an invalid date. *)
Definition TimeValue : Type := option Z.

Definition Day (t : Z) : Z := t / msPerDay.     (* floor(t / msPerDay) *)

Definition MakeTime (hour min sec ms : Z) : Z :=
  hour * msPerHour + min * msPerMinute + sec * msPerSecond + ms.

Definition MakeDate (day time : Z) : Z := day * msPerDay + time.

Definition TimeClip (t : Z) : TimeValue :=
  if Z.abs t <=? 8640000000000000 then Some t else None.

Section Zone.

(** The offset of local time from UTC, in milliseconds, at a time value
    ([true]: the time value is UTC; [false]: it is local): the time zone of
    the browser. *)
Variable LocalTZA : Z -> bool -> Z.

Definition LocalTime (t : Z) : Z := t + LocalTZA t true.

Definition UTC (t : Z) : Z := t - LocalTZA t false.

(** [date.setHours(hour, min, sec, ms)]: the time of day is replaced, on the
    local day of the date. *)
Definition setHours (tv : TimeValue) (hour min sec ms : Z) : TimeValue :=
  match tv with
  | None => None
  | Some t0 =>
      let t := LocalTime t0 in
      TimeClip (UTC (MakeDate (Day t) (MakeTime hour min sec ms)))
  end.

End Zone.

End Date.

(** ** HistoryPage: loading the vehicles and the history *)

(** [useAuth().user]: the user who is signed in, [None] for [null]. *)
Module Auth.
Record User : Type := { id : string }.
End Auth.

(** What [await supabase.from(...)...] settles to: the promise resolves to
    [{ data, error }], or it rejects. *)
Inductive Settled (T : Type) : Type :=
| Resolved (data : option T) (error : option string)
| Rejected (reason : string).

Arguments Resolved {T} data error.
Arguments Rejected {T} reason.

(** The [try] block is left by a [throw]: [if (error) throw error], or the
    rejection. *)
Definition failed {T : Type} (settled : Settled T) : bool :=
  match settled with
  | Resolved _ None => false
  | _ => true
  end.

(** A string as a condition: [''] is false. *)
Definition truthy (s : string) : bool := negb (String.eqb s "").

(** [data || []] *)
Definition orEmpty {T : Type} (data : option (list T)) : list T :=
  match data with
  | Some rows => rows
  | None => []
  end.

(** The query of [fetchHistory]: [vehicle_id = ...], [timestamp >= ...],
    [timestamp <= ...], newest first.  The two bounds are the instants that
    the strings of [toISOString] denote. *)
Record HistoryQuery : Type := {
  eq_vehicle_id : string;
  gte_timestamp : Z;
  lte_timestamp : Z
}.

(** The date range of the first render, read off the clock twice:
    [new Date(Date.now() - 7 * 24 * 60 * 60 * 1000).toISOString().split('T')[0]]
    and [new Date().toISOString().split('T')[0]].  [isoDate] is the part of
    [toISOString] before the ['T']: the UTC date of a time value, as
    [YYYY-MM-DD], by the engine. *)
Definition initialDateRange (isoDate : Z -> string) (now1 now2 : Z) : string * string :=
  (isoDate (now1 - 7 * 24 * 60 * 60 * 1000)%Z, isoDate now2).

Section Page.
Context {A : Type} {num : Number A}.

Definition setVehicles (v : list Vehicle) (st : State A) : State A :=
  {| vehicles := v; selectedVehicle := selectedVehicle st;
     history := history st; dateRange := dateRange st; loading := loading st;
     stats := stats st |}.

Definition setSelectedVehicle (v : string) (st : State A) : State A :=
  {| vehicles := vehicles st; selectedVehicle := v;
     history := history st; dateRange := dateRange st; loading := loading st;
     stats := stats st |}.

Definition setDateRange (r : string * string) (st : State A) : State A :=
  {| vehicles := vehicles st; selectedVehicle := selectedVehicle st;
     history := history st; dateRange := r; loading := loading st;
     stats := stats st |}.

Definition setLoading (b : bool) (st : State A) : State A :=
  {| vehicles := vehicles st; selectedVehicle := selectedVehicle st;
     history := history st; dateRange := dateRange st; loading := b;
     stats := stats st |}.

(** The state of the first render: the initial values of the hooks.  The
    date range is read off the clock: [start] is the UTC date of seven days
    ago and [end_] the UTC date of today, as [YYYY-MM-DD]. *)
Definition initialState (start end_ : string) : State A :=
  {| vehicles := []; selectedVehicle := ""; history := [];
     dateRange := (start, end_); loading := true;
     stats := {| totalRecords := 0; avgSpeed := of_Z 0; maxSpeed := of_Z 0;
                 totalDistance := of_Z 0 |} |}.

(** An asynchronous function reads the hooks as they were at the render that
    created it ([rendered]) and writes to the state as it is when the query
    has settled ([st]).

    [fetchVehicles], from the query's settling on. *)
Definition fetchVehicles (user : option Auth.User) (settled : Settled (list Vehicle))
    (rendered st : State A) : State A :=
  match user with
  | None => st                                         (* if (!user) return *)
  | Some _ =>
      let st' :=
        match settled with
        | Resolved data None =>
            let vehiclesList := orEmpty data in
            let st1 := setVehicles vehiclesList st in
            match vehiclesList with
            | v0 :: _ =>                               (* vehiclesList.length > 0 *)
                if negb (truthy (selectedVehicle rendered))
                then setSelectedVehicle (vehicle_id v0) st1
                else st1
            | [] => st1
            end
        | _ => st                                      (* catch: console.error *)
        end in
      setLoading false st'                             (* finally *)
  end.

Section Environment.

(** The time value of [new Date(s)], by the engine's parser, and the time
    zone of the browser. *)
Variable Date_parse : string -> Date.TimeValue.
Variable LocalTZA : Z -> bool -> Z.

(** The query that [fetchHistory] sends; [None] where [toISOString] throws a
    RangeError, the date being invalid. *)
Definition historyQuery (rendered : State A) : option HistoryQuery :=
  let startDate :=
    Date.setHours LocalTZA (Date_parse (fst (dateRange rendered))) 0 0 0 0 in
  let endDate :=
    Date.setHours LocalTZA (Date_parse (snd (dateRange rendered))) 23 59 59 999 in
  match startDate, endDate with
  | Some from, Some to =>
      Some {| eq_vehicle_id := selectedVehicle rendered;
              gte_timestamp := from; lte_timestamp := to |}
  | _, _ => None
  end.

(** [fetchHistory]; [server] is the answer of the store to the query. *)
Definition fetchHistory (server : HistoryQuery -> Settled (list (TrackingRecord A)))
    (rendered st : State A) : State A :=
  if negb (truthy (selectedVehicle rendered)) then st   (* if (!selectedVehicle) return *)
  else
    match historyQuery rendered with
    | None => st                                        (* catch: console.error *)
    | Some query =>
        match server query with
        | Resolved data None =>
            let records := orEmpty data in
            calculateStats records (setHistory records st)
        | _ => st                                       (* catch: console.error *)
        end
    end.

(** What happens to the page: an effect has run and its query has settled,
    or the user has changed a field of the form. *)
Inductive Event : Type :=
| UserEffect (user : option Auth.User) (settled : Settled (list Vehicle))
    (rendered : State A)
| SelectionEffect (server : HistoryQuery -> Settled (list (TrackingRecord A)))
    (rendered : State A)
| VehicleChanged (value : string)
| StartChanged (value : string) (rendered : State A)
| EndChanged (value : string) (rendered : State A).

Definition step (st : State A) (e : Event) : State A :=
  match e with
  | UserEffect user settled rendered =>
      (* useEffect(() => { if (user) fetchVehicles() }, [user]) *)
      match user with
      | Some _ => fetchVehicles user settled rendered st
      | None => st
      end
  | SelectionEffect server rendered =>
      (* useEffect(() => { if (selectedVehicle) fetchHistory() }, [selectedVehicle, dateRange]) *)
      if truthy (selectedVehicle rendered) then fetchHistory server rendered st else st
  | VehicleChanged value => setSelectedVehicle value st
  | StartChanged value rendered =>
      (* setDateRange({ ...dateRange, start: e.target.value }) *)
      setDateRange (value, snd (dateRange rendered)) st
  | EndChanged value rendered =>
      setDateRange (fst (dateRange rendered), value) st
  end.

Definition run (events : list Event) (st : State A) : State A :=
  fold_left step events st.

End Environment.

(** [vehicles.find((v) => v.id === selectedVehicle)] *)
Definition selectedVehicleData (st : State A) : option Vehicle :=
  find (fun v => String.eqb (vehicle_id v) (selectedVehicle st)) (vehicles st).

(** What the component returns: the spinner, the notice that no vehicle is
    registered, or the page, which shows the vehicles to choose from, the
    choice, the date range, the four figures, the vehicle chosen and the
    rows of the history (in place of no row, a notice). *)
Record Page : Type := {
  options : list Vehicle;
  chosen : string;
  range : string * string;
  cards : Stats A;
  caption : option Vehicle;
  rows : list (TrackingRecord A)
}.

Inductive View : Type :=
| Spinner
| NoVehicles
| Shown (page : Page).

Definition view (st : State A) : View :=
  if loading st then Spinner
  else
    match vehicles st with
    | [] => NoVehicles
    | _ :: _ =>
        Shown {| options := vehicles st; chosen := selectedVehicle st;
                 range := dateRange st; cards := stats st;
                 caption := selectedVehicleData st; rows := history st |}
    end.

End Page.

Arguments Event : clear implicits.
Arguments Page : clear implicits.
Arguments View : clear implicits.

(** ** App: the choice of the page *)

Module App.

Inductive Screen : Type :=
| Loading
| LoginPage
| DashboardPage
| VehiclesPage
| TrackingPage
| HistoryPage
| AlertsPage
| SettingsPage.

Definition renderView (activeView : string) : Screen :=
  if String.eqb activeView "dashboard" then DashboardPage
  else if String.eqb activeView "vehicles" then VehiclesPage
  else if String.eqb activeView "tracking" then TrackingPage
  else if String.eqb activeView "history" then HistoryPage
  else if String.eqb activeView "alerts" then AlertsPage
  else if String.eqb activeView "settings" then SettingsPage
  else DashboardPage.

Definition AppContent (user : option Auth.User) (loading : bool)
    (activeView : string) : Screen :=
  if loading then Loading
  else
    match user with
    | None => LoginPage
    | Some _ => renderView activeView
    end.

End App.

(** ** The rows of the table: the cell of the heading *)

Module Row.

(** A number as a condition: [+0], [-0] and NaN are false. *)
Definition ToBoolean (x : float) : bool :=
  negb (PrimFloat.is_nan x || PrimFloat.eqb x 0%float).

(** What the cell shows: the heading in degrees ([toFixed(0)] of the
    number, then the degree sign), or a dash. *)
Inductive HeadingCell : Type :=
| Degrees (heading : float)
| Dash.

(** [record.heading ? `${record.heading.toFixed(0)}°` : '-'] *)
Definition headingCell (record : TrackingRecord float) : HeadingCell :=
  match heading record with
  | Some h => if ToBoolean h then Degrees h else Dash
  | None => Dash                                       (* null *)
  end.

End Row.

(** ** A browser for the examples *)

Module Browser.
Local Open Scope Z_scope.
Local Open Scope string_scope.

(** A parser that knows the two dates of [Inputs.initial]: the UTC midnights
    of the days 19837 and 19844 of the epoch. *)
Definition Date_parse (s : string) : Date.TimeValue :=
  if String.eqb s "2024-04-24" then Some (19837 * Date.msPerDay)
  else if String.eqb s "2024-05-01" then Some (19844 * Date.msPerDay)
  else None.

(** The zone of Brasilia, three hours behind UTC the whole year. *)
Definition Brasilia (t : Z) (isUTC : bool) : Z := -10800000.

(** The zone of Maputo, two hours ahead of UTC the whole year. *)
Definition Maputo (t : Z) (isUTC : bool) : Z := 7200000.

(** The UTC date of a time value, for the two days that the parser knows. *)
Definition isoDate (t : Z) : string :=
  if Z.eqb (Date.Day t) 19837 then "2024-04-24"
  else if Z.eqb (Date.Day t) 19844 then "2024-05-01"
  else "".

Definition vehicle_1 : Vehicle :=
  {| vehicle_id := "7f9c2a"; license_plate := "ABC-1234"; brand := "Toyota";
     model := "Corolla" |}.

Definition vehicle_2 : Vehicle :=
  {| vehicle_id := "b3d410"; license_plate := "XYZ-9876"; brand := "Fiat";
     model := "Uno" |}.

Definition user_1 : Auth.User := {| Auth.id := "u-1" |}.

End Browser.

(** * Properties *)

(** ** The loop, in every number system *)

Section Loop.
Context {A : Type} {num : Number A}.

Lemma loopStep_shift (x : TrackingRecord A) l d total i :
  (1 <= i)%nat -> loopStep (x :: l) d total (S i) = loopStep l d total i.
Proof.
  intros Hi. unfold loopStep.
  replace (S i - 1)%nat with (S (i - 1)) by lia. reflexivity.
Qed.

Lemma loop_shift (x : TrackingRecord A) l d n : forall k total,
  (1 <= k)%nat ->
  fold_left (loopStep (x :: l) d) (seq (S k) n) total
  = fold_left (loopStep l d) (seq k n) total.
Proof.
  induction n as [|n IH]; intros k total Hk; [reflexivity|].
  cbn [seq fold_left]. rewrite loopStep_shift by exact Hk.
  apply IH. lia.
Qed.

(** The indices 1, ..., length - 1 visit the pairs of neighbours in turn. *)
Lemma loop_walk : forall rest (r0 d : TrackingRecord A) total,
  fold_left (loopStep (r0 :: rest) d) (seq 1 (List.length rest)) total
  = walk r0 rest total.
Proof.
  induction rest as [|r1 rest IH]; intros r0 d total; [reflexivity|].
  cbn [List.length seq fold_left walk].
  rewrite loop_shift by lia. rewrite IH. reflexivity.
Qed.

Lemma stats_nonempty (r0 : TrackingRecord A) rest st :
  stats (calculateStats (r0 :: rest) st)
  = {| totalRecords := S (List.length rest);
       avgSpeed := div (fold_left add (map speed (r0 :: rest)) (of_Z 0))
                       (of_Z (Z.of_nat (S (List.length rest))));
       maxSpeed := Math_max (map speed (r0 :: rest));
       totalDistance := walk r0 rest (of_Z 0) |}.
Proof.
  unfold calculateStats, setStats. cbn [stats]. f_equal.
  - cbn [List.length map]. rewrite length_map. reflexivity.
  - cbn [List.length]. rewrite Nat.sub_succ, Nat.sub_0_r. apply loop_walk.
Qed.

Lemma totalRecords_length (records : list (TrackingRecord A)) st :
  totalRecords (stats (calculateStats records st)) = List.length records.
Proof. destruct records; reflexivity. Qed.

(** [setStats] is the only write: every other hook keeps its value. *)
Lemma calculateStats_frame (records : list (TrackingRecord A)) st :
  vehicles (calculateStats records st) = vehicles st
  /\ selectedVehicle (calculateStats records st) = selectedVehicle st
  /\ history (calculateStats records st) = history st
  /\ dateRange (calculateStats records st) = dateRange st
  /\ loading (calculateStats records st) = loading st.
Proof. destruct records; repeat split. Qed.

Lemma stats_independent_of_state (records : list (TrackingRecord A)) st1 st2 :
  stats (calculateStats records st1) = stats (calculateStats records st2).
Proof. destruct records; reflexivity. Qed.

Lemma fold_left_Permutation {X Y : Type} (f : X -> Y -> X) :
  (forall h a b, f (f h a) b = f (f h b) a) ->
  forall l l', Permutation l l' -> forall h, fold_left f l h = fold_left f l' h.
Proof.
  intros Hf l l' Hp.
  induction Hp as [|x l l' _ IH|x y l|l l' l'' _ IH1 _ IH2]; intros h; cbn.
  - reflexivity.
  - apply IH.
  - rewrite Hf. reflexivity.
  - rewrite IH1. apply IH2.
Qed.

End Loop.

(** ** Exact arithmetic *)

Module ExactFacts.
Local Open Scope R_scope.

#[local] Existing Instance exact.

(** Two terms of Machin's series for [2 atan (1/3) + atan (1/7)] on either side. *)
Lemma PI_bounds : 3.14 < PI < 3.143.
Proof.
  generalize (PI_2_3_7_ineq 1).
  unfold tg_alt, PI_2_3_7_tg, Ratan_seq. cbn [sum_f_R0 Nat.mul Nat.add pow INR].
  intros [Hlo Hhi]. split; lra.
Qed.

Lemma atan2_pos_x y x : 0 < x -> Exact.atan2 y x = atan (y / x).
Proof.
  intros Hx. unfold Exact.atan2.
  destruct (total_order_T 0 x) as [[H|H]|H]; [reflexivity | lra | lra].
Qed.

Lemma atan2_nonneg y x : 0 <= y -> 0 <= Exact.atan2 y x.
Proof.
  intros Hy. unfold Exact.atan2. pose proof PI_RGT_0 as Hpi.
  destruct (total_order_T 0 x) as [[H|H]|H].
  - destruct Hy as [Hy|<-].
    + left. rewrite <- atan_0. apply atan_increasing.
      apply Rdiv_lt_0_compat; assumption.
    + unfold Rdiv. rewrite Rmult_0_l, atan_0. lra.
  - destruct (total_order_T 0 y) as [[H'|H']|H']; lra.
  - destruct (Rle_dec 0 y) as [_|Hn]; [|contradiction].
    pose proof (atan_bound (y / x)). lra.
Qed.

Lemma sin_sqr_half_sym (x y : R) :
  Rsqr (sin ((x - y) / 2)) = Rsqr (sin ((y - x) / 2)).
Proof.
  replace ((y - x) / 2) with (- ((x - y) / 2)) by lra.
  rewrite sin_neg, <- Rsqr_neg. reflexivity.
Qed.

Lemma haversine_a_sym lat1 lon1 lat2 lon2 :
  Spec.haversine_a lat1 lon1 lat2 lon2 = Spec.haversine_a lat2 lon2 lat1 lon1.
Proof.
  unfold Spec.haversine_a. cbv zeta.
  rewrite (sin_sqr_half_sym (Spec.radians lat2) (Spec.radians lat1)).
  rewrite (sin_sqr_half_sym (Spec.radians lon2) (Spec.radians lon1)).
  rewrite (Rmult_comm (cos (Spec.radians lat1)) (cos (Spec.radians lat2))).
  reflexivity.
Qed.

Lemma haversine_sym lat1 lon1 lat2 lon2 :
  Spec.haversine lat1 lon1 lat2 lon2 = Spec.haversine lat2 lon2 lat1 lon1.
Proof. unfold Spec.haversine. rewrite haversine_a_sym. reflexivity. Qed.

Lemma distance_sym p q : Spec.distance p q = Spec.distance q p.
Proof. apply haversine_sym. Qed.

Lemma haversine_a_same lat lon : Spec.haversine_a lat lon lat lon = 0.
Proof.
  unfold Spec.haversine_a. cbv zeta.
  rewrite !Rminus_diag. replace (0 / 2) with 0 by lra.
  rewrite sin_0, Rsqr_0. lra.
Qed.

Lemma haversine_same lat lon : Spec.haversine lat lon lat lon = 0.
Proof.
  unfold Spec.haversine. rewrite haversine_a_same. cbv zeta.
  rewrite sqrt_0, Rminus_0_r, sqrt_1.
  rewrite atan2_pos_x by lra. unfold Rdiv. rewrite Rmult_0_l, atan_0. lra.
Qed.

Lemma haversine_a_one_degree : Spec.haversine_a 0 1 0 0 = Rsqr (sin (PI / 360)).
Proof.
  unfold Spec.haversine_a, Spec.radians. cbv zeta.
  replace ((0 * PI / 180 - 0 * PI / 180) / 2) with 0 by lra.
  replace ((0 * PI / 180 - 1 * PI / 180) / 2) with (- (PI / 360)) by lra.
  replace (0 * PI / 180) with 0 by lra.
  rewrite sin_0, cos_0, sin_neg, <- Rsqr_neg, Rsqr_0. lra.
Qed.

(** One degree of longitude on the equator. *)
Lemma haversine_one_degree : Spec.haversine 0 1 0 0 = 6371 * (PI / 180).
Proof.
  pose proof PI_bounds as Hpi.
  unfold Spec.haversine. rewrite haversine_a_one_degree. cbv zeta.
  assert (Hs : 0 < sin (PI / 360)) by (apply sin_gt_0; lra).
  assert (Hc : 0 < cos (PI / 360)) by (apply cos_gt_0; lra).
  replace (1 - Rsqr (sin (PI / 360))) with (Rsqr (cos (PI / 360)))
    by (pose proof (sin2_cos2 (PI / 360)); lra).
  rewrite !sqrt_Rsqr by lra.
  rewrite atan2_pos_x by exact Hc.
  change (sin (PI / 360) / cos (PI / 360)) with (tan (PI / 360)).
  rewrite atan_tan by lra. lra.
Qed.

Lemma cos_radians_nonneg lat : -90 <= lat <= 90 -> 0 <= cos (Spec.radians lat).
Proof.
  intros [Hlo Hhi]. pose proof PI_RGT_0 as Hpi. unfold Spec.radians.
  apply cos_ge_0; nra.
Qed.

Lemma haversine_a_range phi1 phi2 t :
  0 <= cos phi1 -> 0 <= cos phi2 ->
  0 <= Rsqr (sin ((phi2 - phi1) / 2)) + cos phi1 * cos phi2 * Rsqr (sin t) <= 1.
Proof.
  intros H1 H2.
  pose proof (Rle_0_sqr (sin ((phi2 - phi1) / 2))) as Hs.
  pose proof (Rle_0_sqr (sin t)) as Ht.
  assert (Ht1 : Rsqr (sin t) <= 1).
  { pose proof (sin2_cos2 t). pose proof (Rle_0_sqr (cos t)). lra. }
  assert (Hhalf : 2 * Rsqr (sin ((phi2 - phi1) / 2)) = 1 - cos (phi2 - phi1)).
  { replace (phi2 - phi1) with (2 * ((phi2 - phi1) / 2)) at 2 by lra.
    rewrite cos_2a_sin. unfold Rsqr. ring. }
  rewrite cos_minus in Hhalf.
  pose proof (COS_bound (phi1 + phi2)) as [_ Hc]. rewrite cos_plus in Hc.
  assert (Hp : 0 <= cos phi1 * cos phi2) by (apply Rmult_le_pos; assumption).
  assert (Hlo : 0 <= cos phi1 * cos phi2 * Rsqr (sin t))
    by (apply Rmult_le_pos; assumption).
  assert (Hhi : cos phi1 * cos phi2 * Rsqr (sin t) <= cos phi1 * cos phi2 * 1)
    by (apply Rmult_le_compat_l; assumption).
  split; lra.
Qed.

(** For latitudes in the contract the argument [a] of the two square roots
    lies in [0, 1]: no root of a negative number is taken. *)
Lemma haversine_a_in_contract p q :
  Spec.in_contract p -> Spec.in_contract q ->
  0 <= Spec.haversine_a (latitude p) (longitude p) (latitude q) (longitude q) <= 1.
Proof.
  intros [Hp _] [Hq _]. unfold Spec.haversine_a. cbv zeta.
  apply haversine_a_range; apply cos_radians_nonneg; assumption.
Qed.

(** The local [a] of the loop is the [a] of the formula. *)
Lemma haversineA_spec (p q : TrackingRecord R) :
  haversineA p q
  = Spec.haversine_a (latitude p) (longitude p) (latitude q) (longitude q).
Proof.
  unfold haversineA, Spec.haversine_a, Spec.radians. cbn.
  replace ((latitude q - latitude p) * PI / 180 / 2)
    with ((latitude q * PI / 180 - latitude p * PI / 180) / 2) by lra.
  replace ((longitude q - longitude p) * PI / 180 / 2)
    with ((longitude q * PI / 180 - longitude p * PI / 180) / 2) by lra.
  unfold Rsqr. ring.
Qed.

Lemma distance_nonneg p q : 0 <= Spec.distance p q.
Proof.
  unfold Spec.distance, Spec.haversine. cbv zeta.
  match goal with
  | |- 0 <= 6371 * (2 * Exact.atan2 (sqrt ?a) ?x) =>
      pose proof (@atan2_nonneg (sqrt a) x (sqrt_pos a))
  end.
  lra.
Qed.

Lemma pathLength_nonneg : forall track, 0 <= Spec.pathLength track.
Proof.
  induction track as [|p track IH]; [cbn; lra|].
  destruct track as [|q track]; [cbn; lra|].
  pose proof (distance_nonneg p q).
  change (Spec.pathLength (p :: q :: track))
    with (Spec.distance p q + Spec.pathLength (q :: track)).
  lra.
Qed.

(** The body of the loop is the haversine formula of the specification. *)
Lemma pairDistance_haversine (p q : TrackingRecord R) :
  pairDistance p q = Spec.distance p q.
Proof.
  unfold pairDistance, Spec.distance, Spec.haversine. cbv zeta.
  rewrite haversineA_spec. reflexivity.
Qed.

Lemma walk_pathLength : forall rest (prev : TrackingRecord R) total,
  walk prev rest total = total + Spec.pathLength (prev :: rest).
Proof.
  induction rest as [|r rest IH]; intros prev total.
  - cbn. lra.
  - cbn [walk]. rewrite IH. cbn [add exact].
    rewrite pairDistance_haversine, (distance_sym r prev).
    cbn [Spec.pathLength]. lra.
Qed.

(** Over the reals the loop returns the length of the path through the
    array in its storage order. *)
Lemma totalDistance_pathLength (records : list (TrackingRecord R)) st :
  totalDistance (stats (calculateStats records st)) = Spec.pathLength records.
Proof.
  destruct records as [|r0 rest]; [reflexivity|].
  rewrite stats_nonempty. cbn [totalDistance].
  rewrite walk_pathLength. cbn [of_Z exact]. lra.
Qed.

Lemma pathLength_snoc : forall l x y,
  Spec.pathLength ((l ++ [x]) ++ [y]) = Spec.pathLength (l ++ [x]) + Spec.distance x y.
Proof.
  induction l as [|p l IH]; intros x y.
  - cbn. lra.
  - specialize (IH x y). destruct l as [|q l].
    + cbn. lra.
    + cbn [app Spec.pathLength] in *. lra.
Qed.

Lemma pathLength_rev_cons : forall l p,
  Spec.pathLength (rev (p :: l)) = Spec.pathLength (p :: l).
Proof.
  induction l as [|q l IH]; intros p; [reflexivity|].
  change (rev (p :: q :: l)) with ((rev l ++ [q]) ++ [p]).
  rewrite pathLength_snoc.
  change (rev l ++ [q]) with (rev (q :: l)). rewrite IH.
  cbn [Spec.pathLength]. rewrite (distance_sym q p). lra.
Qed.

Lemma pathLength_rev l : Spec.pathLength (rev l) = Spec.pathLength l.
Proof. destruct l; [reflexivity | apply pathLength_rev_cons]. Qed.


Lemma fold_left_Rplus : forall l acc, fold_left Rplus l acc = acc + Spec.sum l.
Proof.
  induction l as [|x l IH]; intros acc; cbn.
  - lra.
  - rewrite IH. unfold Spec.sum. lra.
Qed.

Lemma fold_left_Rmax : forall rest v,
  Spec.is_maximum (fold_left Rmax rest v) (v :: rest).
Proof.
  induction rest as [|x rest IH]; intros v.
  - split; [left; reflexivity|]. intros w [<-|[]]. cbn. lra.
  - cbn [fold_left]. destruct (IH (Rmax v x)) as [Hin Hub]. split.
    + destruct Hin as [Hin|Hin]; [|right; right; exact Hin].
      rewrite <- Hin. unfold Rmax. destruct (Rle_dec v x); cbn; auto.
    + intros w [Hw|[Hw|Hw]].
      * subst w. apply Rle_trans with (Rmax v x);
          [apply Rmax_l | apply Hub; left; reflexivity].
      * subst w. apply Rle_trans with (Rmax v x);
          [apply Rmax_r | apply Hub; left; reflexivity].
      * apply Hub. right. exact Hw.
Qed.

Lemma is_maximum_unique m m' l l' :
  Permutation l l' -> Spec.is_maximum m l -> Spec.is_maximum m' l' -> m = m'.
Proof.
  intros Hp [Hin Hub] [Hin' Hub'].
  apply Rle_antisym.
  - apply Hub'. apply (Permutation_in _ Hp). exact Hin.
  - apply Hub. apply (Permutation_in _ (Permutation_sym Hp)). exact Hin'.
Qed.

Lemma sum_Permutation l l' : Permutation l l' -> Spec.sum l = Spec.sum l'.
Proof.
  induction 1; cbn; unfold Spec.sum in *; cbn; lra.
Qed.

Lemma sum_le_max m : forall l, (forall v, In v l -> v <= m) ->
  Spec.sum l <= INR (List.length l) * m.
Proof.
  induction l as [|x l IH]; intros Hub.
  - cbn. lra.
  - change (Spec.sum (x :: l)) with (x + Spec.sum l).
    change (List.length (x :: l)) with (S (List.length l)). rewrite S_INR.
    assert (x <= m) by (apply Hub; left; reflexivity).
    assert (Spec.sum l <= INR (List.length l) * m)
      by (apply IH; intros; apply Hub; right; assumption).
    lra.
Qed.

(** The two speed figures of a non-empty array, over the reals. *)
Lemma avgSpeed_mean (r : TrackingRecord R) rest st :
  avgSpeed (stats (calculateStats (r :: rest) st)) = Spec.mean (map speed (r :: rest)).
Proof.
  rewrite stats_nonempty. cbn [avgSpeed]. unfold Spec.mean.
  cbn [add div of_Z exact].
  rewrite fold_left_Rplus, length_map, INR_IZR_INZ. cbn [List.length]. f_equal. lra.
Qed.

Lemma maxSpeed_maximum (r : TrackingRecord R) rest st :
  Spec.is_maximum (maxSpeed (stats (calculateStats (r :: rest) st)))
                  (map speed (r :: rest)).
Proof.
  rewrite stats_nonempty. cbn [maxSpeed Math_max exact map Exact.max].
  apply fold_left_Rmax.
Qed.

Lemma mean_le_maximum m l : l <> [] -> Spec.is_maximum m l -> Spec.mean l <= m.
Proof.
  intros Hne [_ Hub]. unfold Spec.mean.
  assert (Hn : 0 < INR (List.length l)).
  { apply lt_0_INR. destruct l; [contradiction | cbn; lia]. }
  pose proof (sum_le_max l Hub) as Hs.
  apply Rmult_le_reg_r with (INR (List.length l)); [exact Hn|].
  unfold Rdiv. rewrite Rmult_assoc, Rinv_l by lra. lra.
Qed.

End ExactFacts.

(** ** binary64 arithmetic *)

Module Binary64Facts.
Import Binary64.

(** *** [Math.max] does not depend on the order of its arguments *)

Lemma SFcompare_refl x : x <> S754_nan -> SFcompare x x = Some Eq.
Proof.
  destruct x as [s|s| |s m e]; intros H; try congruence; cbn.
  - reflexivity.
  - destruct s; reflexivity.
  - rewrite Z.compare_refl.
    change (Pos.compare_cont Eq m m) with (Pos.compare m m).
    rewrite Pos.compare_refl. destruct s; reflexivity.
Qed.

Lemma is_nan_spec x : PrimFloat.is_nan x = sf_is_nan (Prim2SF x).
Proof.
  unfold PrimFloat.is_nan. rewrite FloatAxioms.eqb_spec. unfold SFeqb.
  destruct (Prim2SF x) eqn:E;
    try (rewrite SFcompare_refl by congruence; reflexivity).
  reflexivity.
Qed.

Lemma is_pos_zero_spec x :
  is_pos_zero x = match Prim2SF x with S754_zero false => true | _ => false end.
Proof.
  unfold is_pos_zero. rewrite classify_spec. unfold SF64classify, SFclassify.
  destruct (Prim2SF x) as [[|]|[|]| |[|] m e]; try reflexivity;
    destruct (Z.eqb _ _); reflexivity.
Qed.

Lemma is_neg_zero_spec x :
  is_neg_zero x = match Prim2SF x with S754_zero true => true | _ => false end.
Proof.
  unfold is_neg_zero. rewrite classify_spec. unfold SF64classify, SFclassify.
  destruct (Prim2SF x) as [[|]|[|]| |[|] m e]; try reflexivity;
    destruct (Z.eqb _ _); reflexivity.
Qed.

Lemma max_step_spec h n :
  Prim2SF (max_step h n) = sf_max_step (Prim2SF h) (Prim2SF n).
Proof.
  unfold max_step, sf_max_step.
  rewrite !is_nan_spec, is_pos_zero_spec, is_neg_zero_spec, FloatAxioms.ltb_spec.
  destruct (Prim2SF h) as [[|]|sh| |sh mh eh] eqn:Eh;
  destruct (Prim2SF n) as [[|]|sn| |sn mn en] eqn:En;
  cbn [sf_is_nan orb andb]; cbv iota; try reflexivity;
  try assumption; destruct (SFltb _ _); assumption.
Qed.

Ltac cmp_cases :=
  repeat match goal with
  | |- context [Z.compare ?a ?b] => destruct (Z.compare_spec a b)
  | |- context [Pos.compare_cont Eq ?a ?b] =>
      change (Pos.compare_cont Eq a b) with (Pos.compare a b);
      destruct (Pos.compare_spec a b)
  end.

(** The comparisons of three numbers, case by case: signs, exponents,
    mantissas. *)
Lemma sf_max_step_comm_r h a b :
  sf_max_step (sf_max_step h a) b = sf_max_step (sf_max_step h b) a.
Proof.
  destruct h as [[|]|[|]| |[|] mh eh], a as [[|]|[|]| |[|] ma ea],
           b as [[|]|[|]| |[|] mb eb];
    try reflexivity;
    unfold sf_max_step, SFltb; cbn;
    cmp_cases; cbn; cmp_cases; cbn; subst; try reflexivity; try lia.
Qed.

Lemma max_step_comm_r h a b :
  max_step (max_step h a) b = max_step (max_step h b) a.
Proof.
  apply Prim2SF_inj. rewrite !max_step_spec. apply sf_max_step_comm_r.
Qed.

Lemma max_Permutation l l' : Permutation l l' -> Binary64.max l = Binary64.max l'.
Proof.
  intros Hp. unfold Binary64.max.
  apply fold_left_Permutation; [apply max_step_comm_r | exact Hp].
Qed.

(** *** [Math.max] returns the greatest of its arguments *)

Lemma sf_max_step_bounds h n :
  sf_is_nan h = false -> sf_is_nan n = false ->
  sf_is_nan (sf_max_step h n) = false
  /\ (sf_max_step h n = h \/ sf_max_step h n = n)
  /\ SFleb h (sf_max_step h n) = true
  /\ SFleb n (sf_max_step h n) = true.
Proof.
  destruct h as [[|]|[|]| |[|] mh eh], n as [[|]|[|]| |[|] mn en];
    intros Hh Hn; try discriminate;
    unfold sf_max_step, SFltb, SFleb; cbn;
    cmp_cases; cbn; cmp_cases; cbn; subst;
    repeat split; auto; try lia;
    try (rewrite ?Z.compare_refl, ?Pos.compare_cont_refl; cbn; reflexivity).
Qed.

Lemma SFleb_trans a b c :
  SFleb a b = true -> SFleb b c = true -> SFleb a c = true.
Proof.
  destruct a as [[|]|[|]| |[|] ma ea], b as [[|]|[|]| |[|] mb eb],
           c as [[|]|[|]| |[|] mc ec];
    unfold SFleb; cbn; try discriminate; try reflexivity;
    cmp_cases; cbn; try discriminate; try reflexivity; intros; lia.
Qed.

Lemma SFleb_refl a : sf_is_nan a = false -> SFleb a a = true.
Proof.
  intros H. unfold SFleb. rewrite SFcompare_refl; [reflexivity|].
  destruct a; discriminate.
Qed.

Lemma SFleb_below_neg_infinity a :
  SFleb a (S754_infinity true) = true -> a = S754_infinity true.
Proof.
  destruct a as [[|]|[|]| |[|] m e]; intros H; try discriminate; reflexivity.
Qed.

Lemma max_step_bounds h n :
  not_nan h -> not_nan n ->
  not_nan (max_step h n)
  /\ (max_step h n = h \/ max_step h n = n)
  /\ PrimFloat.leb h (max_step h n) = true
  /\ PrimFloat.leb n (max_step h n) = true.
Proof.
  unfold not_nan. rewrite !is_nan_spec, !FloatAxioms.leb_spec, max_step_spec.
  intros Hh Hn. destruct (@sf_max_step_bounds _ _ Hh Hn) as (H1 & H2 & H3 & H4).
  repeat split; try assumption.
  destruct H2 as [H2|H2]; [left|right]; apply Prim2SF_inj;
    rewrite max_step_spec; exact H2.
Qed.

Lemma leb_trans a b c :
  PrimFloat.leb a b = true -> PrimFloat.leb b c = true -> PrimFloat.leb a c = true.
Proof. rewrite !FloatAxioms.leb_spec. apply SFleb_trans. Qed.

Lemma fold_max_step_bounds : forall l h,
  not_nan h -> Forall not_nan l ->
  not_nan (fold_left max_step l h)
  /\ (fold_left max_step l h = h \/ In (fold_left max_step l h) l)
  /\ PrimFloat.leb h (fold_left max_step l h) = true
  /\ (forall v, In v l -> PrimFloat.leb v (fold_left max_step l h) = true).
Proof.
  induction l as [|x l IH]; intros h Hh Hl; cbn [fold_left].
  - split; [exact Hh|]. split; [left; reflexivity|]. split; [|intros v []].
    unfold not_nan in Hh. rewrite is_nan_spec in Hh.
    rewrite FloatAxioms.leb_spec. apply SFleb_refl. exact Hh.
  - inversion Hl as [|? ? Hx Hl']; subst.
    destruct (@max_step_bounds h x Hh Hx) as (Hn & Hcase & Hhs & Hxs).
    destruct (IH _ Hn Hl') as (Hr & Hmem & Hle & Hall).
    repeat split.
    + exact Hr.
    + destruct Hmem as [Hmem|Hmem]; [|right; right; exact Hmem].
      rewrite Hmem.
      destruct Hcase as [->| ->]; [left; reflexivity | right; left; reflexivity].
    + apply leb_trans with (max_step h x); assumption.
    + intros v [Hv|Hv];
        [subst v; apply leb_trans with (max_step h x); assumption
        | apply Hall; exact Hv].
Qed.

(** Of numbers none of which is NaN, [Math.max] returns one of them, and
    none of them is greater. *)
Lemma max_is_greatest x l :
  Forall not_nan (x :: l) ->
  In (Binary64.max (x :: l)) (x :: l)
  /\ forall v, In v (x :: l) -> PrimFloat.leb v (Binary64.max (x :: l)) = true.
Proof.
  intros Hl. unfold Binary64.max.
  assert (Hinf : not_nan neg_infinity) by reflexivity.
  destruct (@fold_max_step_bounds (x :: l) neg_infinity Hinf Hl)
    as (Hr & Hmem & Hle & Hall).
  split; [|exact Hall].
  destruct Hmem as [Hmem|Hmem]; [|exact Hmem].
  rewrite Hmem. left.
  assert (Hx : PrimFloat.leb x neg_infinity = true).
  { rewrite <- Hmem. apply Hall. left. reflexivity. }
  rewrite FloatAxioms.leb_spec in Hx.
  change (Prim2SF neg_infinity) with (S754_infinity true) in Hx.
  apply SFleb_below_neg_infinity in Hx. apply Prim2SF_inj. rewrite Hx. reflexivity.
Qed.

(** *** A product of two cosines is finite *)














(** *** The difference of a finite number and itself is [+0] *)



(** *** A latitude of the contract, in radians, is finite *)

Section Radians.
Local Open Scope Z_scope.













End Radians.

(** *** Two samples at one place *)



(** *** The operations and the sign *)

Lemma binary_round_aux_opp s m e l :
  binary_round_aux prec emax (negb s) m e l
  = SFopp (binary_round_aux prec emax s m e l).
Proof.
  unfold binary_round_aux.
  destruct (shr_fexp prec emax m e l) as [mrs' e'].
  destruct (shr_fexp prec emax _ e' loc_Exact) as [mrs'' e''].
  destruct (shr_m mrs''); try reflexivity.
  destruct (Z.leb _ _); reflexivity.
Qed.

Lemma SFmul_opp_l x y : SFmul prec emax (SFopp x) y = SFopp (SFmul prec emax x y).
Proof.
  destruct x as [sx|sx| |sx mx ex], y as [sy|sy| |sy my ey]; cbn [SFopp SFmul];
    rewrite <- ?negb_xorb_l; try reflexivity.
  apply binary_round_aux_opp.
Qed.

Lemma SFmul_comm x y : SFmul prec emax x y = SFmul prec emax y x.
Proof.
  destruct x as [sx|sx| |sx mx ex], y as [sy|sy| |sy my ey]; cbn [SFmul];
    rewrite ?(xorb_comm sx sy); try reflexivity.
  rewrite Pos.mul_comm, Z.add_comm. reflexivity.
Qed.

Lemma SFdiv_opp_l x y : SFdiv prec emax (SFopp x) y = SFopp (SFdiv prec emax x y).
Proof.
  destruct x as [sx|sx| |sx mx ex], y as [sy|sy| |sy my ey]; cbn [SFopp SFdiv];
    rewrite <- ?negb_xorb_l; try reflexivity.
  destruct (SFdiv_core_binary prec emax (Z.pos mx) ex (Z.pos my) ey) as [[mz ez] lz].
  apply binary_round_aux_opp.
Qed.

Lemma mul_opp_l x y :
  PrimFloat.mul (PrimFloat.opp x) y = PrimFloat.opp (PrimFloat.mul x y).
Proof.
  apply Prim2SF_inj. rewrite mul_spec, !opp_spec, mul_spec. apply SFmul_opp_l.
Qed.

Lemma mul_comm x y : PrimFloat.mul x y = PrimFloat.mul y x.
Proof. apply Prim2SF_inj. rewrite !mul_spec. apply SFmul_comm. Qed.

Lemma div_opp_l x y :
  PrimFloat.div (PrimFloat.opp x) y = PrimFloat.opp (PrimFloat.div x y).
Proof.
  apply Prim2SF_inj. rewrite div_spec, !opp_spec, div_spec. apply SFdiv_opp_l.
Qed.

Lemma opp_involutive x : PrimFloat.opp (PrimFloat.opp x) = x.
Proof.
  apply Prim2SF_inj. rewrite !opp_spec.
  destruct (Prim2SF x) as [s|s| |s m e]; cbn; rewrite ?negb_involutive; reflexivity.
Qed.

Lemma mul_opp_opp x y :
  PrimFloat.mul (PrimFloat.opp x) (PrimFloat.opp y) = PrimFloat.mul x y.
Proof.
  rewrite mul_opp_l, (mul_comm x (PrimFloat.opp y)), mul_opp_l, opp_involutive.
  apply mul_comm.
Qed.

Lemma binary_normalize_opp m e :
  binary_normalize prec emax (- m) e false
  = SFopp (binary_normalize prec emax m e false)
  \/ m = 0%Z.
Proof.
  destruct m as [|p|p]; [right; reflexivity| |]; left;
    cbn [Z.opp binary_normalize]; unfold binary_round;
    destruct (shl_align p e _) as [mz ez].
  - apply (binary_round_aux_opp false).
  - change false with (negb true) at 1. rewrite binary_round_aux_opp.
    destruct (binary_round_aux prec emax true (Z.pos mz) ez loc_Exact); cbn; reflexivity.
Qed.

(** [y - x] is the opposite of [x - y], unless both are [+0]. *)
Lemma SFsub_swap x y :
  SFsub prec emax y x = SFopp (SFsub prec emax x y)
  \/ (SFsub prec emax x y = S754_zero false
      /\ SFsub prec emax y x = S754_zero false).
Proof.
  destruct x as [[|]|[|]| |sx mx ex], y as [[|]|[|]| |sy my ey];
    cbn [SFsub SFopp negb];
    try (left; reflexivity); try (right; split; reflexivity).
  - left. rewrite negb_involutive. reflexivity.
  - left. rewrite negb_involutive. reflexivity.
  - rewrite (Z.min_comm ey ex).
    set (ez := Z.min ex ey).
    set (X := cond_Zopp sx (Z.pos (fst (shl_align mx ex ez)))).
    set (Y := cond_Zopp sy (Z.pos (fst (shl_align my ey ez)))).
    replace (Y - X)%Z with (- (X - Y))%Z by lia.
    destruct (binary_normalize_opp (X - Y) ez) as [H|H]; [left; exact H|].
    right. rewrite H. split; reflexivity.
Qed.

Lemma sub_swap x y :
  PrimFloat.sub y x = PrimFloat.opp (PrimFloat.sub x y)
  \/ (PrimFloat.sub x y = 0%float /\ PrimFloat.sub y x = 0%float).
Proof.
  destruct (SFsub_swap (Prim2SF x) (Prim2SF y)) as [H|[H1 H2]].
  - left. apply Prim2SF_inj. rewrite opp_spec, !sub_spec. exact H.
  - right. split; apply Prim2SF_inj; rewrite sub_spec; assumption.
Qed.

Lemma SFadd_comm x y : SFadd prec emax x y = SFadd prec emax y x.
Proof.
  destruct x as [[|]|[|]| |sx mx ex], y as [[|]|[|]| |sy my ey]; cbn [SFadd];
    try reflexivity.
  rewrite (Z.min_comm ey ex), Z.add_comm. reflexivity.
Qed.

Lemma add_comm x y : PrimFloat.add x y = PrimFloat.add y x.
Proof. apply Prim2SF_inj. rewrite !add_spec. apply SFadd_comm. Qed.

Lemma add_neg_zero_r x : PrimFloat.add x (-0)%float = x.
Proof.
  apply Prim2SF_inj. rewrite add_spec. change (Prim2SF (-0)) with (S754_zero true).
  destruct (Prim2SF x) as [[|]|[|]| |s m e]; reflexivity.
Qed.

Lemma zero_add x : PrimFloat.add 0 x = x \/ x = (-0)%float.
Proof.
  destruct (Prim2SF x) as [[|]|[|]| |s m e] eqn:E.
  2-6: left; apply Prim2SF_inj; rewrite add_spec, E; reflexivity.
  right. apply Prim2SF_inj. rewrite E. reflexivity.
Qed.

(** Two terms added to 0 in either order. *)
Lemma sum_of_two_swap a b :
  PrimFloat.add (PrimFloat.add 0 a) b = PrimFloat.add (PrimFloat.add 0 b) a.
Proof.
  destruct (zero_add a) as [Ha|Ha], (zero_add b) as [Hb|Hb].
  - rewrite Ha, Hb. apply add_comm.
  - subst b. rewrite (add_neg_zero_r (PrimFloat.add 0 a)). reflexivity.
  - subst a. rewrite (add_neg_zero_r (PrimFloat.add 0 b)). reflexivity.
  - subst a b. reflexivity.
Qed.

Lemma not_negative_spec x : not_negative x <-> sf_not_negative (Prim2SF x).
Proof.
  unfold not_negative. rewrite FloatAxioms.ltb_spec.
  change (Prim2SF 0) with (S754_zero false).
  destruct (Prim2SF x) as [[|]|[|]| |[|] m e]; cbn; intuition discriminate.
Qed.

Lemma binary_round_aux_not_negative m e l :
  sf_not_negative (binary_round_aux prec emax false m e l).
Proof.
  unfold binary_round_aux.
  destruct (shr_fexp prec emax m e l) as [mrs' e'].
  destruct (shr_fexp prec emax _ e' loc_Exact) as [mrs'' e''].
  destruct (shr_m mrs''); cbn; auto.
  destruct (Z.leb _ _); cbn; auto.
Qed.

Lemma sqrt_not_negative x : not_negative (PrimFloat.sqrt x).
Proof.
  apply not_negative_spec. rewrite sqrt_spec. unfold SF64sqrt, SFsqrt.
  destruct (Prim2SF x) as [[|]|[|]| |[|] m e]; cbn; auto.
  destruct (SFsqrt_core_binary prec emax (Z.pos m) e) as [[mz ez] lz].
  apply binary_round_aux_not_negative.
Qed.

Lemma mul_not_negative a b :
  not_negative a -> not_negative b -> not_negative (PrimFloat.mul a b).
Proof.
  rewrite !not_negative_spec, mul_spec. unfold SF64mul.
  destruct (Prim2SF a) as [[|]|[|]| |[|] ma ea],
           (Prim2SF b) as [[|]|[|]| |[|] mb eb];
    cbn [SFmul sf_not_negative xorb]; try tauto.
  intros _ _. apply binary_round_aux_not_negative.
Qed.

Lemma add_not_negative a b :
  not_negative a -> not_negative b -> not_negative (PrimFloat.add a b).
Proof.
  rewrite !not_negative_spec, add_spec. unfold SF64add.
  destruct (Prim2SF a) as [[|]|[|]| |[|] ma ea],
           (Prim2SF b) as [[|]|[|]| |[|] mb eb];
    cbn [SFadd sf_not_negative]; try tauto.
  intros _ _. cbn [cond_Zopp].
  destruct (shl_align ma ea (Z.min ea eb)) as [ma' ea'].
  destruct (shl_align mb eb (Z.min ea eb)) as [mb' eb'].
  cbn [fst Z.add binary_normalize]. unfold binary_round.
  destruct (shl_align _ _ _) as [mz ez].
  apply binary_round_aux_not_negative.
Qed.

Lemma div_abs_not_negative y x :
  not_negative y -> not_negative (PrimFloat.div y (PrimFloat.abs x)).
Proof.
  rewrite !not_negative_spec, div_spec, abs_spec. unfold SF64div.
  destruct (Prim2SF y) as [[|]|[|]| |[|] my ey],
           (Prim2SF x) as [[|]|[|]| |[|] mx ex];
    cbn [SFdiv SFabs sf_not_negative xorb]; try tauto.
  all: intros _;
    destruct (SFdiv_core_binary prec emax (Z.pos my) ey (Z.pos mx) ex) as [[mz ez] lz];
    apply binary_round_aux_not_negative.
Qed.

(** *** The two square roots of the loop *)

Lemma binary_round_aux_zero_sign s M E l s' :
  binary_round_aux prec emax s M E l = S754_zero s' -> s' = s.
Proof.
  unfold binary_round_aux.
  destruct (shr_fexp prec emax M E l) as [mrs' e'].
  destruct (shr_fexp prec emax _ e' loc_Exact) as [mrs'' e''].
  destruct (shr_m mrs'') as [|p|p]; [|destruct (e'' <=? emax - prec)%Z|];
    intros H; try discriminate H. injection H as <-. reflexivity.
Qed.

(** The square root is [-0] for [-0] only. *)
Lemma sqrt_neg_zero a :
  is_neg_zero (PrimFloat.sqrt a) = true -> a = (-0)%float.
Proof.
  rewrite is_neg_zero_spec, sqrt_spec. unfold SF64sqrt, SFsqrt. intros H.
  apply Prim2SF_inj. change (Prim2SF (-0)) with (S754_zero true).
  destruct (Prim2SF a) as [[|]|[|]| |[|] m e]; try discriminate H; [reflexivity|].
  destruct (SFsqrt_core_binary prec emax (Zpos m) e) as [[mz ez] lz].
  destruct (binary_round_aux prec emax false mz ez lz) as [[|]|s'| |s' m' e'] eqn:E;
    try discriminate H.
  apply binary_round_aux_zero_sign in E. discriminate E.
Qed.

(** The two square roots of the loop are not both [-0]. *)
Lemma roots_not_both_neg_zero a :
  is_neg_zero (PrimFloat.sqrt a)
  && is_neg_zero (PrimFloat.sqrt (PrimFloat.sub (Binary64.of_int 1) a)) = false.
Proof.
  destruct (is_neg_zero (PrimFloat.sqrt a)) eqn:E; [|reflexivity].
  apply sqrt_neg_zero in E. subst a. reflexivity.
Qed.

(** *** The distance of a pair, in binary64 *)

Section Pair.
Variable m : Libm.

(** The sine of the half angle of [y - x] and of [x - y]. *)
Lemma sin_half_swap c1 c2 c3 x y :
  OddSine m ->
  libm_sin m (PrimFloat.div (PrimFloat.div (PrimFloat.mul (PrimFloat.sub y x) c1) c2) c3)
  = PrimFloat.opp
      (libm_sin m (PrimFloat.div (PrimFloat.div (PrimFloat.mul (PrimFloat.sub x y) c1) c2) c3))
  \/ libm_sin m (PrimFloat.div (PrimFloat.div (PrimFloat.mul (PrimFloat.sub y x) c1) c2) c3)
     = libm_sin m (PrimFloat.div (PrimFloat.div (PrimFloat.mul (PrimFloat.sub x y) c1) c2) c3).
Proof.
  intros Hodd. destruct (sub_swap x y) as [H|[H1 H2]].
  - left. rewrite H, mul_opp_l, !div_opp_l, Hodd. reflexivity.
  - right. rewrite H1, H2. reflexivity.
Qed.

Lemma square_swap s s' :
  s' = PrimFloat.opp s \/ s' = s -> PrimFloat.mul s' s' = PrimFloat.mul s s.
Proof. intros [->| ->]; [apply mul_opp_opp | reflexivity]. Qed.

Lemma scaled_square_swap c s s' :
  s' = PrimFloat.opp s \/ s' = s ->
  PrimFloat.mul (PrimFloat.mul c s') s' = PrimFloat.mul (PrimFloat.mul c s) s.
Proof.
  intros [->| ->]; [|reflexivity].
  rewrite (mul_comm c (PrimFloat.opp s)), mul_opp_l, mul_opp_opp, (mul_comm s c).
  reflexivity.
Qed.

Lemma haversineA_sym (p q : TrackingRecord float) :
  OddSine m ->
  haversineA (num := binary64 m) p q = haversineA (num := binary64 m) q p.
Proof.
  intros Hodd. unfold haversineA.
  cbn [of_Z add sub mul div Math_PI Math_sin Math_cos binary64].
  rewrite (square_swap
             (sin_half_swap Binary64.PI (Binary64.of_int 180) (Binary64.of_int 2)
                            (latitude p) (latitude q) Hodd)).
  rewrite (scaled_square_swap _
             (sin_half_swap Binary64.PI (Binary64.of_int 180) (Binary64.of_int 2)
                            (longitude p) (longitude q) Hodd)).
  rewrite (mul_comm (libm_cos m _) (libm_cos m _)). reflexivity.
Qed.

(** With an odd sine the distance of a pair is the same number in both
    directions. *)
Lemma pairDistance_sym (p q : TrackingRecord float) :
  OddSine m ->
  pairDistance (num := binary64 m) p q = pairDistance (num := binary64 m) q p.
Proof.
  intros Hodd. unfold pairDistance. rewrite (haversineA_sym p q Hodd). reflexivity.
Qed.

Lemma pairDistance_not_negative (p q : TrackingRecord float) :
  AtanNotNegative m -> not_negative (pairDistance (num := binary64 m) p q).
Proof.
  intros Hatan. unfold pairDistance.
  cbn [of_Z add sub mul div Math_sqrt Math_atan2 binary64].
  apply mul_not_negative; [reflexivity|].
  apply mul_not_negative; [reflexivity|].
  apply Hatan; [apply sqrt_not_negative | apply sqrt_not_negative |].
  apply roots_not_both_neg_zero.
Qed.

Lemma walk_not_negative : forall rest (prev : TrackingRecord float) total,
  AtanNotNegative m -> not_negative total ->
  not_negative (walk (num := binary64 m) prev rest total).
Proof.
  induction rest as [|r rest IH]; intros prev total Hatan Htotal; [exact Htotal|].
  cbn [walk]. apply IH; [exact Hatan|].
  apply add_not_negative; [exact Htotal | apply pairDistance_not_negative; exact Hatan].
Qed.

End Pair.

Lemma small_angle_odd : OddSine small_angle_libm.
Proof. intros x. reflexivity. Qed.

Lemma small_angle_atan_not_negative : AtanNotNegative small_angle_libm.
Proof. intros y x Hy _ _. apply div_abs_not_negative. exact Hy. Qed.


End Binary64Facts.

(** * The claims *)

Section Claims.
Local Open Scope R_scope.

#[local] Existing Instance exact.

(** C1, as the specification states it, fails: the loop pairs the rows in
    their storage order, and nothing sorts them.  For the three rows of
    [Inputs.shuffled] (the vehicle stands at (0, 0) at 10:00 and 11:00 and
    is at (0, 1) at 12:00; the 12:00 row is stored second) the distance over
    the pairs adjacent in time is one degree of the equator, and
    [calculateStats] returns twice that. *)
Lemma shuffled_totalDistance_not_temporal :
  exists records : list (TrackingRecord R), forall st,
    Spec.temporalDistance records = 6371 * (PI / 180)
    /\ totalDistance (stats (calculateStats records st)) = 2 * (6371 * (PI / 180))
    /\ Spec.temporalDistance records < totalDistance (stats (calculateStats records st)).
Proof.
  exists Inputs.shuffled. intros st.
  rewrite ExactFacts.totalDistance_pathLength.
  assert (Ht : Spec.temporalDistance Inputs.shuffled = 6371 * (PI / 180)).
  { unfold Spec.temporalDistance.
    change (Spec.chronological Inputs.shuffled)
      with [ Inputs.sample 0 0 0 "2024-05-01T10:00:00+00:00"%string;
             Inputs.sample 0 0 0 "2024-05-01T11:00:00+00:00"%string;
             Inputs.sample 0 1 40 "2024-05-01T12:00:00+00:00"%string ].
    cbn [Spec.pathLength]. unfold Spec.distance. cbn [latitude longitude Inputs.sample].
    rewrite ExactFacts.haversine_same, (ExactFacts.haversine_sym 0 0 0 1),
      ExactFacts.haversine_one_degree. lra. }
  assert (Hs : Spec.pathLength Inputs.shuffled = 2 * (6371 * (PI / 180))).
  { unfold Inputs.shuffled. cbn [Spec.pathLength]. unfold Spec.distance.
    cbn [latitude longitude Inputs.sample].
    rewrite (ExactFacts.haversine_sym 0 0 0 1), ExactFacts.haversine_one_degree. lra. }
  rewrite Ht, Hs. pose proof ExactFacts.PI_bounds. repeat split; lra.
Qed.

(** C1, amended: for every finite sequence of samples stored in the order of
    their timestamps, oldest first or newest first (as the query returns
    them), [totalDistance] is, in exact arithmetic, the sum over the pairs of
    samples adjacent in time of their haversine distance with Earth radius
    6371 km.  No sorting takes place, so for another storage order it is the
    sum over the pairs adjacent in the array. *)
Theorem totalDistance_temporal_in_time_order :
  forall (records : list (TrackingRecord R)) st,
    Spec.chronological records = records \/ Spec.chronological records = rev records ->
    totalDistance (stats (calculateStats records st)) = Spec.temporalDistance records.
Proof.
  intros records st Horder.
  rewrite ExactFacts.totalDistance_pathLength. unfold Spec.temporalDistance.
  destruct Horder as [-> | ->]; [reflexivity|].
  symmetry. apply ExactFacts.pathLength_rev.
Qed.

Lemma totalDistance_temporal_in_time_order_witness :
  totalDistance (stats (calculateStats Inputs.scenario_B Inputs.initial))
  = Spec.temporalDistance Inputs.scenario_B.
Proof.
  apply totalDistance_temporal_in_time_order. right. reflexivity.
Defined.

(** C2: for the empty array [calculateStats] stores the all-zero statistics
    (0 records, average 0, maximum 0, distance 0), in binary64 whatever the
    engine and in exact arithmetic; the function is total, nothing is
    raised. *)
Theorem calculateStats_empty :
  (forall m (st : State float),
     stats (calculateStats (num := binary64 m) [] st)
     = {| totalRecords := 0; avgSpeed := 0%float; maxSpeed := 0%float;
          totalDistance := 0%float |})
  /\ (forall st : State R,
        stats (calculateStats [] st)
        = {| totalRecords := 0; avgSpeed := 0; maxSpeed := 0; totalDistance := 0 |}).
Proof. split; intros; reflexivity. Qed.

(** C3, as stated, fails in binary64: the average is the sum of the speeds,
    rounded at each addition, divided by their number, and is not always
    their arithmetic mean.  Three samples at 10.8 km/h, whose mean is 10.8,
    have the average 10.800000000000002: the sum 10.8 + 10.8 + 10.8 is
    rounded up to 32.400000000000006.  Two samples at
    1.7976931348623157e308 km/h, the greatest finite number, whose mean is
    that number, have the average Infinity: their sum overflows. *)
Lemma avgSpeed_is_not_the_mean :
  (exists records : list (TrackingRecord float),
     map speed records = [10.8; 10.8; 10.8]%float
     /\ forall m st,
          avgSpeed (stats (calculateStats (num := binary64 m) records st))
          = 10.800000000000002%float
          /\ PrimFloat.eqb
               (avgSpeed (stats (calculateStats (num := binary64 m) records st)))
               10.8%float = false)
  /\ (exists records : list (TrackingRecord float),
        map speed records
        = [0x1.fffffffffffffp+1023; 0x1.fffffffffffffp+1023]%float
        /\ forall m st,
             avgSpeed (stats (calculateStats (num := binary64 m) records st))
             = PrimFloat.infinity).
Proof.
  split.
  - exists Inputs.steady. split; [reflexivity|].
    intros m st. unfold Inputs.steady. rewrite stats_nonempty.
    split; vm_compute; reflexivity.
  - exists [ Inputs.sample (-23.5505)%float (-46.6333)%float
               0x1.fffffffffffffp+1023%float "2024-05-01T12:01:00+00:00";
             Inputs.sample (-23.5505)%float (-46.6333)%float
               0x1.fffffffffffffp+1023%float "2024-05-01T12:00:00+00:00" ].
    split; [reflexivity|].
    intros m st. rewrite stats_nonempty. vm_compute. reflexivity.
Qed.

(** C3, amended: for every non-empty array the average is the arithmetic
    mean of the speeds and the maximum is the greatest of the speeds, in
    exact arithmetic.  In binary64, on every engine, the average is the sum
    of the speeds from 0, left to right and rounded at each addition,
    divided by their number; the maximum of speeds none of which is NaN is
    one of them and none is greater; and three samples with the speeds 10,
    20, 30, wherever and whenever they were taken, give the binary64 average
    20 and the maximum 30. *)
Theorem avgSpeed_mean_maxSpeed_maximum :
  (forall (r : TrackingRecord R) rest st,
     avgSpeed (stats (calculateStats (r :: rest) st)) = Spec.mean (map speed (r :: rest))
     /\ Spec.is_maximum (maxSpeed (stats (calculateStats (r :: rest) st)))
                        (map speed (r :: rest)))
  /\ (forall m (r : TrackingRecord float) rest st,
        avgSpeed (stats (calculateStats (num := binary64 m) (r :: rest) st))
        = PrimFloat.div
            (fold_left PrimFloat.add (map speed (r :: rest)) 0%float)
            (Binary64.of_int (Z.of_nat (List.length (r :: rest)))))
  /\ (forall m (r : TrackingRecord float) rest st,
        Forall (fun x => Binary64.not_nan (speed x)) (r :: rest) ->
        In (maxSpeed (stats (calculateStats (num := binary64 m) (r :: rest) st)))
           (map speed (r :: rest))
        /\ forall v, In v (map speed (r :: rest)) ->
             PrimFloat.leb v
               (maxSpeed (stats (calculateStats (num := binary64 m) (r :: rest) st)))
             = true)
  /\ (forall m i1 lat1 lon1 t1 h1 i2 lat2 lon2 t2 h2 i3 lat3 lon3 t3 h3 st,
        avgSpeed (stats (calculateStats (num := binary64 m)
          [ {| id := i1; latitude := lat1; longitude := lon1; speed := 10%float;
               timestamp := t1; heading := h1 |};
            {| id := i2; latitude := lat2; longitude := lon2; speed := 20%float;
               timestamp := t2; heading := h2 |};
            {| id := i3; latitude := lat3; longitude := lon3; speed := 30%float;
               timestamp := t3; heading := h3 |} ] st)) = 20%float
        /\ maxSpeed (stats (calculateStats (num := binary64 m)
          [ {| id := i1; latitude := lat1; longitude := lon1; speed := 10%float;
               timestamp := t1; heading := h1 |};
            {| id := i2; latitude := lat2; longitude := lon2; speed := 20%float;
               timestamp := t2; heading := h2 |};
            {| id := i3; latitude := lat3; longitude := lon3; speed := 30%float;
               timestamp := t3; heading := h3 |} ] st)) = 30%float).
Proof.
  split; [|split; [|split]].
  - intros r rest st. split.
    + apply ExactFacts.avgSpeed_mean.
    + apply ExactFacts.maxSpeed_maximum.
  - intros m r rest st. rewrite stats_nonempty. reflexivity.
  - intros m r rest st Hnan. rewrite stats_nonempty.
    cbn [maxSpeed Math_max binary64 map].
    apply Binary64Facts.max_is_greatest.
    change (Forall Binary64.not_nan (map speed (r :: rest))).
    apply Forall_map. exact Hnan.
  - intros. rewrite stats_nonempty. split; reflexivity.
Qed.

Lemma avgSpeed_mean_maxSpeed_maximum_witness :
  In (maxSpeed (stats (calculateStats (num := binary64 small_angle_libm) Inputs.crawl
                         (Inputs.initial (num := binary64 small_angle_libm)))))
     (map speed Inputs.crawl)
  /\ forall v, In v (map speed Inputs.crawl) ->
       PrimFloat.leb v
         (maxSpeed (stats (calculateStats (num := binary64 small_angle_libm) Inputs.crawl
                             (Inputs.initial (num := binary64 small_angle_libm)))))
       = true.
Proof.
  apply (proj1 (proj2 (proj2 avgSpeed_mean_maxSpeed_maximum))).
  repeat constructor.
Defined.

(** C4, as stated, fails in binary64: for three samples at a steady
    10.8 km/h the sum 10.8 + 10.8 + 10.8 rounds to 32.400000000000006 and its
    third to 10.800000000000002, above the maximum 10.8.  (The speeds 0.1,
    0.1, 0.1 do the same: 0.30000000000000004, then 0.10000000000000002.) *)
Lemma steady_avgSpeed_above_maxSpeed :
  exists records : list (TrackingRecord float), forall m st,
    (1 <= totalRecords (stats (calculateStats (num := binary64 m) records st)))%nat
    /\ fold_left PrimFloat.add (map speed records) 0%float = 32.400000000000006%float
    /\ avgSpeed (stats (calculateStats (num := binary64 m) records st))
       = 10.800000000000002%float
    /\ maxSpeed (stats (calculateStats (num := binary64 m) records st)) = 10.8%float
    /\ PrimFloat.ltb
         (maxSpeed (stats (calculateStats (num := binary64 m) records st)))
         (avgSpeed (stats (calculateStats (num := binary64 m) records st))) = true.
Proof.
  exists Inputs.steady. intros m st. unfold Inputs.steady.
  rewrite stats_nonempty. repeat split. cbn. lia.
Qed.

(** C4, amended: in exact arithmetic, for every array with at least one
    record the maximum of the speeds is greater than or equal to their
    average; in binary64 the average carries the rounding of the sum and of
    the division and can exceed the maximum by it. *)
Theorem maxSpeed_ge_avgSpeed_exact :
  forall (records : list (TrackingRecord R)) st,
    (1 <= totalRecords (stats (calculateStats records st)))%nat ->
    avgSpeed (stats (calculateStats records st))
    <= maxSpeed (stats (calculateStats records st)).
Proof.
  intros [|r rest] st Hcount; [cbn in Hcount; lia|].
  rewrite ExactFacts.avgSpeed_mean.
  apply ExactFacts.mean_le_maximum; [discriminate|].
  apply ExactFacts.maxSpeed_maximum.
Qed.

Lemma maxSpeed_ge_avgSpeed_exact_witness :
  avgSpeed (stats (calculateStats Inputs.scenario_B Inputs.initial))
  <= maxSpeed (stats (calculateStats Inputs.scenario_B Inputs.initial)).
Proof.
  apply maxSpeed_ge_avgSpeed_exact. cbn. lia.
Defined.

(** C5, as stated, fails in binary64 for two consecutive samples at opposite
    points of the globe.  For [Inputs.antipodes], inside the contract, the
    sine of half the difference of the latitudes is -0.13917310096006544, the
    two cosines are 0.9902680687415704 and the sine of half the difference of
    the longitudes is 1: the squares 0.019369152030840567 and
    0.9806308479691596 add up to 1.0000000000000002, the local [a].  Then
    [1 - a] is negative, its square root is NaN, and so are [c] and
    [totalDistance]: the total is not a number greater than or equal to 0. *)
Lemma antipodes_totalDistance_nan :
  exists records : list (TrackingRecord float),
    Forall (fun r => PrimFloat.leb (-90) (latitude r) && PrimFloat.leb (latitude r) 90
                     && PrimFloat.leb (-180) (longitude r)
                     && PrimFloat.leb (longitude r) 180 = true)%float records
    /\ (libm_sin taylor_libm (-0.13962634015954636) = -0.13917310096006544
        /\ libm_cos taylor_libm 0.13962634015954636 = 0.9902680687415704
        /\ libm_cos taylor_libm (-0.13962634015954636) = 0.9902680687415704
        /\ libm_sin taylor_libm 1.5707963267948966 = 1)%float
    /\ map (fun pair => haversineA (num := binary64 taylor_libm) (fst pair) (snd pair))
           (combine (tl records) records)
       = [ 1.0000000000000002 ]%float
    /\ forall st,
         PrimFloat.is_nan
           (totalDistance (stats (calculateStats (num := binary64 taylor_libm) records st)))
         = true
         /\ PrimFloat.leb 0%float
              (totalDistance
                 (stats (calculateStats (num := binary64 taylor_libm) records st)))
            = false.
Proof.
  exists Inputs.antipodes. split; [repeat constructor|].
  split; [repeat split; vm_compute; reflexivity|].
  split; [vm_compute; reflexivity|].
  intros st. unfold Inputs.antipodes.
  rewrite !stats_nonempty. cbn [totalDistance].
  split; vm_compute; reflexivity.
Qed.

(** C5, amended: [totalDistance] is never negative.  For every array whose
    samples have a latitude in [-90, 90] and a longitude in [-180, 180] it is
    greater than or equal to 0 in exact arithmetic, and for every two of its
    samples the local [a] lies in [0, 1], so that both square roots are taken
    of numbers that are not negative.  In binary64, on every engine whose
    arctangent is not negative for arguments that are not below zero and
    are not both [-0] (the two square roots of the loop never are),
    [totalDistance] is never below 0, for every array: it is greater than or
    equal to 0, or NaN. *)
Theorem totalDistance_nonneg :
  (forall (records : list (TrackingRecord R)) st,
     Forall Spec.in_contract records ->
     0 <= totalDistance (stats (calculateStats records st))
     /\ forall p q, In p records -> In q records -> 0 <= haversineA p q <= 1)
  /\ (forall m (records : list (TrackingRecord float)) st,
        AtanNotNegative m ->
        PrimFloat.ltb (totalDistance (stats (calculateStats (num := binary64 m) records st)))
                      0%float = false).
Proof.
  split.
  - intros records st Hall. split.
    + rewrite ExactFacts.totalDistance_pathLength.
      apply ExactFacts.pathLength_nonneg.
    + intros p q Hp Hq. rewrite Forall_forall in Hall.
      rewrite ExactFacts.haversineA_spec.
      apply ExactFacts.haversine_a_in_contract; apply Hall; assumption.
  - intros m [|r0 rest] st Hatan; [reflexivity|].
    rewrite stats_nonempty. cbn [totalDistance].
    apply Binary64Facts.walk_not_negative; [exact Hatan | reflexivity].
Qed.

Lemma totalDistance_nonneg_witness :
  (0 <= totalDistance (stats (calculateStats Inputs.scenario_B Inputs.initial))
   /\ forall p q, In p Inputs.scenario_B -> In q Inputs.scenario_B ->
        0 <= haversineA p q <= 1)
  /\ PrimFloat.ltb
       (totalDistance (stats (calculateStats (num := binary64 small_angle_libm)
                                Inputs.steady
                                (Inputs.initial (num := binary64 small_angle_libm)))))
       0%float = false.
Proof.
  split.
  - apply (proj1 totalDistance_nonneg). repeat constructor; cbn; lra.
  - apply (proj2 totalDistance_nonneg). apply Binary64Facts.small_angle_atan_not_negative.
Defined.

(** C6, as stated, fails in binary64 for arrays of four samples or more: the
    array reversed adds the same distances in the opposite order, and the
    addition of binary64 numbers is not associative.  For the four samples of
    [Inputs.creep] the distances are 111.19492664455872 km and twice
    5.003771699005143e-15 km.  Newest first, each small distance is lost when
    added to the large one (it is less than half the gap between 111.19...872
    and the next number): the total is 111.19492664455872.  Oldest first the
    two small distances are added first, and their sum is not lost: the total
    is 111.19492664455873. *)
Lemma creep_totalDistance_depends_on_direction :
  exists records : list (TrackingRecord float),
    map (fun pair => pairDistance (num := binary64 taylor_libm) (fst pair) (snd pair))
        (combine (tl records) records)
    = [ 111.19492664455872; 5.003771699005143e-15; 5.003771699005143e-15 ]%float
    /\ forall st,
         totalDistance (stats (calculateStats (num := binary64 taylor_libm) records st))
         = 111.19492664455872%float
         /\ totalDistance
              (stats (calculateStats (num := binary64 taylor_libm) (rev records) st))
            = 111.19492664455873%float
         /\ PrimFloat.ltb
              (totalDistance
                 (stats (calculateStats (num := binary64 taylor_libm) records st)))
              (totalDistance
                 (stats (calculateStats (num := binary64 taylor_libm) (rev records) st)))
            = true.
Proof.
  exists Inputs.creep. split; [vm_compute; reflexivity|].
  intros st. unfold Inputs.creep. cbn [rev app].
  rewrite !stats_nonempty. cbn [totalDistance].
  repeat split; vm_compute; reflexivity.
Qed.

(** C6, amended: in exact arithmetic, for every array, the array reversed
    has the [totalDistance] of the array: the haversine distance is symmetric
    and the sum does not depend on the order of its terms.  In binary64, on
    every engine with an odd sine, the distance of a pair is the same number
    in both directions, and with up to three samples the two totals are the
    same number; with more samples the same terms are added in the opposite
    order and the totals can differ in the last digit. *)
Theorem totalDistance_rev :
  (forall (records : list (TrackingRecord R)) st,
     totalDistance (stats (calculateStats (rev records) st))
     = totalDistance (stats (calculateStats records st)))
  /\ (forall m, OddSine m ->
        (forall p q : TrackingRecord float,
           pairDistance (num := binary64 m) p q = pairDistance (num := binary64 m) q p)
        /\ (forall (records : list (TrackingRecord float)) st,
              (List.length records <= 3)%nat ->
              totalDistance (stats (calculateStats (num := binary64 m) (rev records) st))
              = totalDistance (stats (calculateStats (num := binary64 m) records st)))).
Proof.
  split.
  - intros records st. rewrite !ExactFacts.totalDistance_pathLength.
    apply ExactFacts.pathLength_rev.
  - intros m Hodd. split.
    + intros p q. apply Binary64Facts.pairDistance_sym. exact Hodd.
    + intros [|r0 [|r1 [|r2 [|r3 rest]]]] st Hlen.
      * reflexivity.
      * reflexivity.
      * cbn [rev app]. rewrite !stats_nonempty. cbn [totalDistance walk].
        rewrite (Binary64Facts.pairDistance_sym r0 r1 Hodd). reflexivity.
      * cbn [rev app]. rewrite !stats_nonempty. cbn [totalDistance walk].
        rewrite (Binary64Facts.pairDistance_sym r1 r2 Hodd),
                (Binary64Facts.pairDistance_sym r0 r1 Hodd).
        apply Binary64Facts.sum_of_two_swap.
      * cbn in Hlen. lia.
Qed.

Lemma totalDistance_rev_witness :
  totalDistance (stats (calculateStats (num := binary64 small_angle_libm)
                          (rev Inputs.steady)
                          (Inputs.initial (num := binary64 small_angle_libm))))
  = totalDistance (stats (calculateStats (num := binary64 small_angle_libm)
                            Inputs.steady
                            (Inputs.initial (num := binary64 small_angle_libm)))).
Proof.
  apply (proj2 (proj2 totalDistance_rev small_angle_libm
                  Binary64Facts.small_angle_odd)).
  cbn. lia.
Defined.



(** C8: for the two samples at (0, 0) and (0, 1), in either order and
    whatever their other fields, [totalDistance] is, in exact arithmetic,
    6371 * pi / 180 = 111.1949... km: within 0.1 km of 111.19 km.  In
    binary64, on the engine [taylor_libm], it is 111.19492664455873 km. *)
Theorem one_degree_on_the_equator :
  (forall i1 s1 t1 h1 i2 s2 t2 h2 st,
     let origin := {| id := i1; latitude := 0; longitude := 0; speed := s1;
                      timestamp := t1; heading := h1 |} in
     let east := {| id := i2; latitude := 0; longitude := 1; speed := s2;
                    timestamp := t2; heading := h2 |} in
     Rabs (totalDistance (stats (calculateStats [origin; east] st)) - 111.19) <= 0.1
     /\ Rabs (totalDistance (stats (calculateStats [east; origin] st)) - 111.19) <= 0.1)
  /\ (forall i1 s1 t1 h1 i2 s2 t2 h2 st,
        let origin := {| id := i1; latitude := 0%float; longitude := 0%float;
                         speed := s1; timestamp := t1; heading := h1 |} in
        let east := {| id := i2; latitude := 0%float; longitude := 1%float;
                       speed := s2; timestamp := t2; heading := h2 |} in
        totalDistance (stats (calculateStats (num := binary64 taylor_libm)
                                [origin; east] st))
        = 111.19492664455873%float
        /\ totalDistance (stats (calculateStats (num := binary64 taylor_libm)
                                   [east; origin] st))
           = 111.19492664455873%float
        /\ PrimFloat.ltb (PrimFloat.abs (111.19492664455873 - 111.19)) 0.1%float = true).
Proof.
  split.
  - intros. pose proof ExactFacts.PI_bounds as Hpi.
    assert (Hd : Spec.distance origin east = 6371 * (PI / 180)).
    { unfold Spec.distance, origin, east. cbn [latitude longitude].
      rewrite ExactFacts.haversine_sym. apply ExactFacts.haversine_one_degree. }
    rewrite !ExactFacts.totalDistance_pathLength. cbn [Spec.pathLength].
    rewrite (ExactFacts.distance_sym east origin), Hd.
    split; apply Rabs_le; lra.
  - intros. subst origin east.
    rewrite !stats_nonempty. cbn [totalDistance].
    repeat split; vm_compute; reflexivity.
Qed.

(** C9: the statistics depend on the array alone.  In every number system
    (in binary64 for every engine) two calls on the same array store the same
    statistics whatever the state before each call, directly or through
    [fetchHistory]; a call changes no other part of the state; and calling
    twice in a row is calling once. *)
Theorem calculateStats_deterministic :
  forall (A : Type) (num : Number A) (records : list (TrackingRecord A)) (st1 st2 : State A),
    stats (calculateStats records st1) = stats (calculateStats records st2)
    /\ stats (fetchHistory_ok records st1) = stats (calculateStats records st2)
    /\ calculateStats records (calculateStats records st1) = calculateStats records st1
    /\ history (calculateStats records st1) = history st1
    /\ vehicles (calculateStats records st1) = vehicles st1
    /\ selectedVehicle (calculateStats records st1) = selectedVehicle st1
    /\ dateRange (calculateStats records st1) = dateRange st1
    /\ loading (calculateStats records st1) = loading st1.
Proof.
  intros A num records st1 st2. destruct records; repeat split.
Qed.

(** C10, as stated, fails in binary64 for the average: the speeds 0.1, 0.2,
    0.3 summed from the left give 0.30000000000000004, then
    0.6000000000000001, and the average 0.20000000000000004; in the opposite
    order they give 0.5, then 0.6, and the average 0.19999999999999998. *)
Lemma crawl_avgSpeed_depends_on_order :
  exists records records' : list (TrackingRecord float),
    Permutation records records'
    /\ fold_left PrimFloat.add (map speed records) 0%float = 0.6000000000000001%float
    /\ fold_left PrimFloat.add (map speed records') 0%float = 0.6%float
    /\ forall m st,
         avgSpeed (stats (calculateStats (num := binary64 m) records st))
         = 0.20000000000000004%float
         /\ avgSpeed (stats (calculateStats (num := binary64 m) records' st))
            = 0.19999999999999998%float
         /\ PrimFloat.ltb
              (avgSpeed (stats (calculateStats (num := binary64 m) records' st)))
              (avgSpeed (stats (calculateStats (num := binary64 m) records st))) = true.
Proof.
  exists Inputs.crawl, (rev Inputs.crawl). split; [apply Permutation_rev|].
  split; [reflexivity|]. split; [reflexivity|].
  intros m st. unfold Inputs.crawl. cbn [rev app].
  rewrite !stats_nonempty. repeat split.
Qed.

(** C10, amended: for every array and every permutation of it, the number
    of records and the maximum speed are identical, in binary64 on every
    engine; the average speed is identical in exact arithmetic (in binary64
    it is the sum taken from the left, rounded at each step, over the count,
    and can change in its last digits with the order). *)
Theorem speed_figures_of_a_permutation :
  (forall m (records records' : list (TrackingRecord float)) st st',
     Permutation records records' ->
     totalRecords (stats (calculateStats (num := binary64 m) records st))
     = totalRecords (stats (calculateStats (num := binary64 m) records' st'))
     /\ maxSpeed (stats (calculateStats (num := binary64 m) records st))
        = maxSpeed (stats (calculateStats (num := binary64 m) records' st')))
  /\ (forall (records records' : list (TrackingRecord R)) st st',
        Permutation records records' ->
        totalRecords (stats (calculateStats records st))
        = totalRecords (stats (calculateStats records' st'))
        /\ avgSpeed (stats (calculateStats records st))
           = avgSpeed (stats (calculateStats records' st'))
        /\ maxSpeed (stats (calculateStats records st))
           = maxSpeed (stats (calculateStats records' st'))).
Proof.
  split.
  - intros m records records' st st' Hp. split.
    + rewrite !totalRecords_length. apply Permutation_length. exact Hp.
    + destruct records as [|r rest], records' as [|r' rest'].
      * reflexivity.
      * apply Permutation_nil in Hp. discriminate.
      * apply Permutation_sym, Permutation_nil in Hp. discriminate.
      * rewrite !stats_nonempty. cbn [maxSpeed Math_max binary64].
        apply Binary64Facts.max_Permutation, Permutation_map. exact Hp.
  - intros records records' st st' Hp.
    destruct records as [|r rest], records' as [|r' rest'].
    + repeat split.
    + apply Permutation_nil in Hp. discriminate.
    + apply Permutation_sym, Permutation_nil in Hp. discriminate.
    + pose proof (Permutation_map speed Hp) as Hs.
      repeat split.
      * rewrite !totalRecords_length. apply Permutation_length. exact Hp.
      * rewrite !ExactFacts.avgSpeed_mean. unfold Spec.mean.
        rewrite (ExactFacts.sum_Permutation Hs), (Permutation_length Hs). reflexivity.
      * apply (ExactFacts.is_maximum_unique Hs); apply ExactFacts.maxSpeed_maximum.
Qed.

Lemma speed_figures_of_a_permutation_witness :
  totalRecords (stats (calculateStats (num := binary64 small_angle_libm)
                         Inputs.crawl (Inputs.initial (num := binary64 small_angle_libm))))
  = totalRecords (stats (calculateStats (num := binary64 small_angle_libm)
                           (rev Inputs.crawl)
                           (Inputs.initial (num := binary64 small_angle_libm))))
  /\ maxSpeed (stats (calculateStats (num := binary64 small_angle_libm)
                        Inputs.crawl (Inputs.initial (num := binary64 small_angle_libm))))
     = maxSpeed (stats (calculateStats (num := binary64 small_angle_libm)
                          (rev Inputs.crawl)
                           (Inputs.initial (num := binary64 small_angle_libm)))).
Proof.
  apply (proj1 speed_figures_of_a_permutation). apply Permutation_rev.
Defined.

End Claims.

(** * The rest of the page *)

(** ** The state of the page, in every number system *)

Section PageFacts.
Context {A : Type} {num : Number A}.

Lemma fetchVehicles_frame user settled (rendered st : State A) :
  history (fetchVehicles user settled rendered st) = history st
  /\ stats (fetchVehicles user settled rendered st) = stats st
  /\ dateRange (fetchVehicles user settled rendered st) = dateRange st.
Proof.
  unfold fetchVehicles.
  destruct user as [u|]; [|repeat split].
  destruct settled as [data [e|]|reason]; try (repeat split).
  all: destruct (orEmpty data) as [|v0 rest]; try reflexivity.
  all: destruct (negb (truthy (selectedVehicle rendered))); reflexivity.
Qed.

Lemma fetchHistory_cases Date_parse LocalTZA server (rendered st : State A) :
  fetchHistory Date_parse LocalTZA server rendered st = st
  \/ exists records,
       fetchHistory Date_parse LocalTZA server rendered st
       = calculateStats records (setHistory records st).
Proof.
  unfold fetchHistory.
  destruct (negb (truthy (selectedVehicle rendered))); [left; reflexivity|].
  destruct (historyQuery Date_parse LocalTZA rendered) as [query|]; [|left; reflexivity].
  destruct (server query) as [data [e|]|reason]; try (left; reflexivity).
  right. exists (orEmpty data). reflexivity.
Qed.

Lemma step_summarised Date_parse LocalTZA (st : State A) e :
  stats st = stats (calculateStats (history st) st) ->
  stats (step Date_parse LocalTZA st e)
  = stats (calculateStats (history (step Date_parse LocalTZA st e))
             (step Date_parse LocalTZA st e)).
Proof.
  intros Hst.
  destruct e as [user settled rendered|server rendered|value|value rendered|value rendered];
    cbn [step].
  - destruct user as [u|]; [|exact Hst].
    destruct (fetchVehicles_frame (Some u) settled rendered st) as (Hh & Hs & _).
    rewrite Hs, Hh, Hst. apply stats_independent_of_state.
  - destruct (truthy (selectedVehicle rendered)); [|exact Hst].
    destruct (fetchHistory_cases Date_parse LocalTZA server rendered st)
      as [->|[records ->]]; [exact Hst|].
    destruct (calculateStats_frame records (setHistory records st)) as (_ & _ & Hh & _).
    rewrite Hh. cbn [setHistory history]. apply stats_independent_of_state.
  - cbn [setSelectedVehicle stats history]. rewrite Hst at 1.
    apply stats_independent_of_state.
  - cbn [setDateRange stats history]. rewrite Hst at 1.
    apply stats_independent_of_state.
  - cbn [setDateRange stats history]. rewrite Hst at 1.
    apply stats_independent_of_state.
Qed.

(** X1: whatever happens to the page, from the first render on, and in
    whatever order the queries settle, the four figures are those of the
    rows of the history that the page lists: the state holds the statistics
    of its own [history], and [totalRecords] is the number of its rows. *)
Theorem figures_belong_to_rows :
  forall Date_parse LocalTZA start end_ (events : list (Event A)),
    let st := run Date_parse LocalTZA events (initialState start end_) in
    stats st = stats (calculateStats (history st) st)
    /\ totalRecords (stats st) = List.length (history st).
Proof.
  intros Date_parse LocalTZA start end_ events.
  assert (H : forall st0 : State A,
             stats st0 = stats (calculateStats (history st0) st0) ->
             stats (run Date_parse LocalTZA events st0)
             = stats (calculateStats (history (run Date_parse LocalTZA events st0))
                        (run Date_parse LocalTZA events st0))).
  { unfold run. induction events as [|e events IH]; intros st0 H0; [exact H0|].
    cbn [fold_left]. apply IH. apply step_summarised. exact H0. }
  cbv zeta. split.
  - apply H. reflexivity.
  - rewrite H by reflexivity. apply totalRecords_length.
Qed.

End PageFacts.

(** ** The window of the history query *)

Module DateFacts.
Local Open Scope Z_scope.

Lemma Day_of_local_midnight day tza :
  Date.Day (day * Date.msPerDay + tza) = day + tza / Date.msPerDay.
Proof. unfold Date.Day. apply Z.div_add_l. discriminate. Qed.

(** In a zone of one offset [tza], [setHours] on the UTC midnight of the day
    [day] gives the time of day [time] of the local date on which that
    midnight falls. *)
Lemma setHours_of_midnight LocalTZA tza day hour min sec ms :
  (forall t b, LocalTZA t b = tza) ->
  Date.setHours LocalTZA (Some (day * Date.msPerDay)) hour min sec ms
  = Date.TimeClip ((day + tza / Date.msPerDay) * Date.msPerDay
                   + Date.MakeTime hour min sec ms - tza).
Proof.
  intros Hz. unfold Date.setHours, Date.LocalTime, Date.UTC, Date.MakeDate.
  rewrite !Hz, Day_of_local_midnight. reflexivity.
Qed.

Lemma TimeClip_in_range t :
  Z.abs t <= 8640000000000000 -> Date.TimeClip t = Some t.
Proof.
  intros H. unfold Date.TimeClip.
  destruct (Z.leb_spec (Z.abs t) 8640000000000000); [reflexivity|lia].
Qed.

(** The query of [fetchHistory] in a zone of one offset: the bounds are the
    first and the last millisecond of the local dates on which the UTC
    midnights of the two chosen dates fall. *)
Lemma historyQuery_bounds {A : Type}
    Date_parse LocalTZA tza dS dE (rendered : State A) :
  (forall t b, LocalTZA t b = tza) ->
  Date_parse (fst (dateRange rendered)) = Some (dS * Date.msPerDay) ->
  Date_parse (snd (dateRange rendered)) = Some (dE * Date.msPerDay) ->
  - Date.msPerDay <= tza < Date.msPerDay ->
  Z.abs dS <= 99999997 -> Z.abs dE <= 99999997 ->
  historyQuery Date_parse LocalTZA rendered
  = Some {| eq_vehicle_id := selectedVehicle rendered;
            gte_timestamp := (dS + tza / Date.msPerDay) * Date.msPerDay - tza;
            lte_timestamp := (dE + tza / Date.msPerDay) * Date.msPerDay
                             + 86399999 - tza |}.
Proof.
  intros Hz HS HE Htza HdS HdE. unfold historyQuery.
  rewrite HS, HE, !(@setHours_of_midnight LocalTZA tza _ _ _ _ _ Hz).
  assert (Hk : -1 <= tza / Date.msPerDay <= 0).
  { unfold Date.msPerDay in *. Z.div_mod_to_equations. lia. }
  rewrite !TimeClip_in_range.
  - unfold Date.MakeTime, Date.msPerHour, Date.msPerMinute, Date.msPerSecond.
    do 2 f_equal; lia.
  - unfold Date.MakeTime, Date.msPerHour, Date.msPerMinute, Date.msPerSecond,
      Date.msPerDay in *. lia.
  - unfold Date.MakeTime, Date.msPerHour, Date.msPerMinute, Date.msPerSecond,
      Date.msPerDay in *. lia.
Qed.

Lemma Day_between t lo hi :
  lo * Date.msPerDay <= t <= hi * Date.msPerDay + 86399999
  <-> lo <= Date.Day t <= hi.
Proof.
  unfold Date.Day, Date.msPerDay. split; intros H; Z.div_mod_to_equations; lia.
Qed.

End DateFacts.

Section WindowFacts.
Context {A : Type}.
Local Open Scope Z_scope.

(** X2: in a time zone at or east of Greenwich (one offset from 0 up to a
    day), with the two dates of the form valid, [fetchHistory] asks for the
    chosen vehicle and for exactly the instants (in whole milliseconds)
    whose local date lies between the chosen start date and the chosen end
    date, both included. *)
Theorem window_east_of_Greenwich :
  forall Date_parse LocalTZA tza dS dE (rendered : State A),
    (forall t b, LocalTZA t b = tza) ->
    Date_parse (fst (dateRange rendered)) = Some (dS * Date.msPerDay) ->
    Date_parse (snd (dateRange rendered)) = Some (dE * Date.msPerDay) ->
    0 <= tza < Date.msPerDay ->
    Z.abs dS <= 99999997 -> Z.abs dE <= 99999997 ->
    exists query,
      historyQuery Date_parse LocalTZA rendered = Some query
      /\ eq_vehicle_id query = selectedVehicle rendered
      /\ forall t, gte_timestamp query <= t <= lte_timestamp query
                   <-> dS <= Date.Day (t + tza) <= dE.
Proof.
  intros Date_parse LocalTZA tza dS dE rendered Hz HS HE Htza HdS HdE.
  eexists. split; [|split].
  - apply (@DateFacts.historyQuery_bounds A Date_parse LocalTZA tza dS dE rendered Hz HS HE);
      try assumption.
    unfold Date.msPerDay in *. lia.
  - reflexivity.
  - intros t. cbn [gte_timestamp lte_timestamp].
    rewrite <- DateFacts.Day_between.
    replace (tza / Date.msPerDay) with 0
      by (unfold Date.msPerDay in *; Z.div_mod_to_equations; lia).
    lia.
Qed.

(** X3: in a time zone west of Greenwich (one offset, negative, of a day at
    most), [fetchHistory] asks for exactly the instants (in whole
    milliseconds) whose local date lies between the day before the chosen
    start date and the day before the chosen end date:
    [new Date('YYYY-MM-DD')] is the UTC midnight, which falls
    on the evening before in local time, and [setHours] stays on that local
    day.  No instant of the chosen end date itself is asked for. *)
Theorem window_west_of_Greenwich :
  forall Date_parse LocalTZA tza dS dE (rendered : State A),
    (forall t b, LocalTZA t b = tza) ->
    Date_parse (fst (dateRange rendered)) = Some (dS * Date.msPerDay) ->
    Date_parse (snd (dateRange rendered)) = Some (dE * Date.msPerDay) ->
    - Date.msPerDay <= tza < 0 ->
    Z.abs dS <= 99999997 -> Z.abs dE <= 99999997 ->
    exists query,
      historyQuery Date_parse LocalTZA rendered = Some query
      /\ eq_vehicle_id query = selectedVehicle rendered
      /\ (forall t, gte_timestamp query <= t <= lte_timestamp query
                    <-> dS - 1 <= Date.Day (t + tza) <= dE - 1)
      /\ (forall t, gte_timestamp query <= t <= lte_timestamp query ->
                    Date.Day (t + tza) < dE).
Proof.
  intros Date_parse LocalTZA tza dS dE rendered Hz HS HE Htza HdS HdE.
  assert (Hin : forall t,
             (dS + tza / Date.msPerDay) * Date.msPerDay - tza <= t
               <= (dE + tza / Date.msPerDay) * Date.msPerDay + 86399999 - tza
             <-> dS - 1 <= Date.Day (t + tza) <= dE - 1).
  { intros t. rewrite <- DateFacts.Day_between.
    replace (tza / Date.msPerDay) with (-1)
      by (unfold Date.msPerDay in *; Z.div_mod_to_equations; lia).
    lia. }
  eexists. split; [|split; [|split]].
  - apply (@DateFacts.historyQuery_bounds A Date_parse LocalTZA tza dS dE rendered Hz HS HE);
      try assumption.
    unfold Date.msPerDay in *. lia.
  - reflexivity.
  - exact Hin.
  - intros t Ht. apply Hin in Ht. lia.
Qed.

End WindowFacts.

Section WindowExamples.
Local Open Scope Z_scope.

Lemma window_east_of_Greenwich_witness :
  exists query,
    historyQuery Browser.Date_parse Browser.Maputo (Inputs.initial (num := exact))
    = Some query
    /\ eq_vehicle_id query = selectedVehicle (Inputs.initial (num := exact))
    /\ forall t, gte_timestamp query <= t <= lte_timestamp query
                 <-> 19837 <= Date.Day (t + 7200000) <= 19844.
Proof.
  apply (@window_east_of_Greenwich R Browser.Date_parse Browser.Maputo 7200000
           19837 19844 (Inputs.initial (num := exact))).
  - reflexivity.
  - reflexivity.
  - reflexivity.
  - unfold Date.msPerDay. lia.
  - lia.
  - lia.
Defined.

Lemma window_west_of_Greenwich_witness :
  exists query,
    historyQuery Browser.Date_parse Browser.Brasilia (Inputs.initial (num := exact))
    = Some query
    /\ eq_vehicle_id query = selectedVehicle (Inputs.initial (num := exact))
    /\ (forall t, gte_timestamp query <= t <= lte_timestamp query
                  <-> 19837 - 1 <= Date.Day (t + -10800000) <= 19844 - 1)
    /\ (forall t, gte_timestamp query <= t <= lte_timestamp query ->
                  Date.Day (t + -10800000) < 19844).
Proof.
  apply (@window_west_of_Greenwich R Browser.Date_parse Browser.Brasilia (-10800000)
           19837 19844 (Inputs.initial (num := exact))).
  - reflexivity.
  - reflexivity.
  - reflexivity.
  - unfold Date.msPerDay. lia.
  - lia.
  - lia.
Defined.

End WindowExamples.

(** ** Loading the vehicles *)

Section Loading.
Context {A : Type} {num : Number A}.

Lemma truthy_empty s : truthy s = false <-> s = ""%string.
Proof.
  unfold truthy. destruct (String.eqb_spec s ""); split; intros H;
    try reflexivity; try assumption; try discriminate. contradiction.
Qed.

(** X4: when the vehicles query succeeds with at least one vehicle and no
    vehicle was chosen at the render of the effect, [fetchVehicles] stores
    the list, chooses its first vehicle and ends the spinner: the page shows
    that vehicle as the one chosen, with the figures and rows it had.  A
    choice made at that render is never replaced, whatever the query gives. *)
Theorem first_vehicle_is_chosen :
  (forall (u : Auth.User) v0 rest (rendered st : State A),
     selectedVehicle rendered = ""%string ->
     let st' := fetchVehicles (Some u) (Resolved (Some (v0 :: rest)) None) rendered st in
     selectedVehicle st' = vehicle_id v0
     /\ selectedVehicleData st' = Some v0
     /\ view st'
        = Shown {| options := v0 :: rest; chosen := vehicle_id v0;
                   range := dateRange st; cards := stats st; caption := Some v0;
                   rows := history st |})
  /\ (forall user settled (rendered st : State A),
        truthy (selectedVehicle rendered) = true ->
        selectedVehicle (fetchVehicles user settled rendered st) = selectedVehicle st).
Proof.
  split.
  - intros u v0 rest rendered st Hsel. cbv zeta.
    unfold fetchVehicles. cbn [orEmpty].
    apply truthy_empty in Hsel. rewrite Hsel. cbn [negb].
    unfold view, selectedVehicleData.
    cbn [setVehicles setSelectedVehicle setLoading vehicles selectedVehicle loading
         history stats dateRange find].
    rewrite String.eqb_refl. repeat split.
  - intros user settled rendered st Hsel. unfold fetchVehicles.
    destruct user as [u|]; [|reflexivity].
    destruct settled as [data [e|]|reason]; try reflexivity.
    destruct (orEmpty data) as [|v0 rest]; [reflexivity|].
    rewrite Hsel. reflexivity.
Qed.

(** X5: when the vehicles query fails (the answer carries an error, or the
    promise rejects), [fetchVehicles] ends the spinner and changes nothing
    else: no error is kept in the state.  On a page that holds no vehicle
    the state is then the state after a query that succeeds with no vehicle,
    and the page shows the notice that no vehicle is registered. *)
Theorem failed_vehicles_query :
  forall (u : Auth.User) settled (rendered st : State A),
    failed settled = true ->
    let st' := fetchVehicles (Some u) settled rendered st in
    st' = setLoading false st
    /\ (vehicles st = [] ->
        st' = fetchVehicles (Some u) (Resolved (Some []) None) rendered st
        /\ view st' = NoVehicles).
Proof.
  intros u settled rendered st Hf. cbv zeta.
  assert (H : fetchVehicles (Some u) settled rendered st = setLoading false st).
  { unfold fetchVehicles. destruct settled as [data [e|]|reason];
      [reflexivity|discriminate|reflexivity]. }
  rewrite H. split; [reflexivity|].
  intros Hv. split.
  - unfold fetchVehicles. cbn [orEmpty]. unfold setLoading, setVehicles.
    cbn [vehicles selectedVehicle history dateRange loading stats].
    rewrite Hv. reflexivity.
  - unfold view. cbn [setLoading loading vehicles]. rewrite Hv. reflexivity.
Qed.

End Loading.

Lemma first_vehicle_is_chosen_witness :
  (let st' :=
     fetchVehicles (Some Browser.user_1)
       (Resolved (Some [Browser.vehicle_1; Browser.vehicle_2]) None)
       (Inputs.initial (num := exact)) (Inputs.initial (num := exact)) in
   selectedVehicle st' = vehicle_id Browser.vehicle_1
   /\ selectedVehicleData st' = Some Browser.vehicle_1
   /\ view st'
      = Shown {| options := [Browser.vehicle_1; Browser.vehicle_2];
                 chosen := vehicle_id Browser.vehicle_1;
                 range := dateRange (Inputs.initial (num := exact));
                 cards := stats (Inputs.initial (num := exact));
                 caption := Some Browser.vehicle_1;
                 rows := history (Inputs.initial (num := exact)) |})
  /\ selectedVehicle
       (fetchVehicles (Some Browser.user_1) (Resolved (Some [Browser.vehicle_2]) None)
          (setSelectedVehicle "7f9c2a" (Inputs.initial (num := exact)))
          (setSelectedVehicle "7f9c2a" (Inputs.initial (num := exact))))
     = "7f9c2a"%string.
Proof.
  split.
  - apply (proj1 (@first_vehicle_is_chosen R)). reflexivity.
  - apply (proj2 (@first_vehicle_is_chosen R)). reflexivity.
Defined.

Lemma failed_vehicles_query_witness :
  let st' :=
    fetchVehicles (Some Browser.user_1) (Rejected "Failed to fetch")
      (Inputs.initial (num := exact)) (Inputs.initial (num := exact)) in
  st' = setLoading false (Inputs.initial (num := exact))
  /\ (vehicles (Inputs.initial (num := exact)) = [] ->
      st' = fetchVehicles (Some Browser.user_1) (Resolved (Some []) None)
              (Inputs.initial (num := exact)) (Inputs.initial (num := exact))
      /\ view st' = NoVehicles).
Proof.
  apply (@failed_vehicles_query R). reflexivity.
Defined.

(** ** Loading the history *)

Section LoadingHistory.
Context {A : Type} {num : Number A}.
Variable Date_parse : string -> Date.TimeValue.
Variable LocalTZA : Z -> bool -> Z.

(** X6: when the history query succeeds, the rows stored are the answer of
    the store to the query made of the vehicle and the dates of the render
    that started the effect, whatever the vehicle and the dates chosen by the
    time the answer arrives: the state keeps its own choice of vehicle and
    dates, and takes the rows and the figures of the answer. *)
Theorem answer_of_an_earlier_render :
  forall server (rendered st : State A) query data,
    truthy (selectedVehicle rendered) = true ->
    historyQuery Date_parse LocalTZA rendered = Some query ->
    server query = Resolved data None ->
    let st' := step Date_parse LocalTZA st (SelectionEffect server rendered) in
    eq_vehicle_id query = selectedVehicle rendered
    /\ history st' = orEmpty data
    /\ stats st' = stats (calculateStats (orEmpty data) st)
    /\ selectedVehicle st' = selectedVehicle st
    /\ dateRange st' = dateRange st
    /\ vehicles st' = vehicles st
    /\ loading st' = loading st.
Proof.
  intros server rendered st query data Hsel Hq Hs. cbv zeta.
  cbn [step]. rewrite Hsel. unfold fetchHistory. rewrite Hsel. cbn [negb].
  rewrite Hq, Hs.
  destruct (calculateStats_frame (orEmpty data) (setHistory (orEmpty data) st))
    as (Hv & Hsv & Hh & Hd & Hl).
  rewrite Hv, Hsv, Hh, Hd, Hl.
  split.
  { unfold historyQuery in Hq.
    destruct (Date.setHours LocalTZA (Date_parse (fst (dateRange rendered))) 0 0 0 0);
      [|discriminate].
    destruct (Date.setHours LocalTZA (Date_parse (snd (dateRange rendered))) 23 59 59 999);
      [|discriminate].
    injection Hq as <-. reflexivity. }
  repeat split. apply stats_independent_of_state.
Qed.

(** X7: when the history query fails, the page keeps the rows and the
    figures it had: after the choice of another vehicle and a query that
    fails, the vehicle chosen is the new one while the rows and the figures
    are still those of the query before. *)
Theorem failed_history_query :
  forall server (st : State A) value,
    (forall query, failed (server query) = true) ->
    let st1 := step Date_parse LocalTZA st (VehicleChanged value) in
    let st2 := step Date_parse LocalTZA st1 (SelectionEffect server st1) in
    selectedVehicle st2 = value
    /\ history st2 = history st
    /\ stats st2 = stats st
    /\ st2 = st1.
Proof.
  intros server st value Hf. cbv zeta.
  assert (H : forall st1 : State A,
             step Date_parse LocalTZA st1 (SelectionEffect server st1) = st1).
  { intros st1. cbn [step]. destruct (truthy (selectedVehicle st1)); [|reflexivity].
    unfold fetchHistory. destruct (negb _); [reflexivity|].
    destruct (historyQuery Date_parse LocalTZA st1) as [query|]; [|reflexivity].
    specialize (Hf query).
    destruct (server query) as [data [e|]|reason]; [reflexivity|discriminate|reflexivity]. }
  rewrite H. cbn [step]. repeat split.
Qed.

(** X8: with a date that the engine cannot read in either field of the form
    (a field that was cleared), [toISOString] throws before any query is
    sent, the error is caught, and the page keeps what it showed, whatever
    the store would have answered. *)
Theorem invalid_date_sends_no_query :
  forall server (rendered st : State A),
    Date_parse (fst (dateRange rendered)) = None
    \/ Date_parse (snd (dateRange rendered)) = None ->
    historyQuery Date_parse LocalTZA rendered = None
    /\ step Date_parse LocalTZA st (SelectionEffect server rendered) = st.
Proof.
  intros server rendered st Hd.
  assert (Hq : historyQuery Date_parse LocalTZA rendered = None).
  { unfold historyQuery. destruct Hd as [-> | ->]; cbn [Date.setHours].
    - reflexivity.
    - destruct (Date.setHours _ _ _ _ _ _); reflexivity. }
  split; [exact Hq|].
  cbn [step]. destruct (truthy (selectedVehicle rendered)); [|reflexivity].
  unfold fetchHistory. rewrite Hq. destruct (negb _); reflexivity.
Qed.

End LoadingHistory.

Section HistoryExamples.
#[local] Existing Instance exact.

Lemma answer_of_an_earlier_render_witness :
  let server := fun _ : HistoryQuery => Resolved (Some Inputs.scenario_B) None in
  let rendered := setSelectedVehicle "7f9c2a" (Inputs.initial (num := exact)) in
  let st := setSelectedVehicle "b3d410" (Inputs.initial (num := exact)) in
  let query := {| eq_vehicle_id := "7f9c2a"; gte_timestamp := 1713841200000;
                  lte_timestamp := 1714532399999 |} in
  let st' :=
    step Browser.Date_parse Browser.Brasilia st (SelectionEffect server rendered) in
  eq_vehicle_id query = selectedVehicle rendered
  /\ history st' = orEmpty (Some Inputs.scenario_B)
  /\ stats st' = stats (calculateStats (orEmpty (Some Inputs.scenario_B)) st)
  /\ selectedVehicle st' = selectedVehicle st
  /\ dateRange st' = dateRange st
  /\ vehicles st' = vehicles st
  /\ loading st' = loading st.
Proof.
  apply (@answer_of_an_earlier_render R exact Browser.Date_parse Browser.Brasilia
           (fun _ => Resolved (Some Inputs.scenario_B) None)
           (setSelectedVehicle "7f9c2a" Inputs.initial)
           (setSelectedVehicle "b3d410" Inputs.initial)
           {| eq_vehicle_id := "7f9c2a"; gte_timestamp := 1713841200000;
              lte_timestamp := 1714532399999 |}
           (Some Inputs.scenario_B)).
  - reflexivity.
  - reflexivity.
  - reflexivity.
Defined.

Lemma failed_history_query_witness :
  let server := fun _ : HistoryQuery =>
                  Rejected (T := list (TrackingRecord R)) "Failed to fetch" in
  let st := fetchHistory_ok Inputs.scenario_B
              (setSelectedVehicle "7f9c2a" (Inputs.initial (num := exact))) in
  let st1 := step Browser.Date_parse Browser.Brasilia st (VehicleChanged "b3d410") in
  let st2 := step Browser.Date_parse Browser.Brasilia st1 (SelectionEffect server st1) in
  selectedVehicle st2 = "b3d410"%string
  /\ history st2 = history st
  /\ stats st2 = stats st
  /\ st2 = st1.
Proof.
  apply (@failed_history_query R exact Browser.Date_parse Browser.Brasilia
           (fun _ => Rejected "Failed to fetch")
           (fetchHistory_ok Inputs.scenario_B (setSelectedVehicle "7f9c2a" Inputs.initial))
           "b3d410").
  intros query. reflexivity.
Defined.

Lemma invalid_date_sends_no_query_witness :
  let server := fun _ : HistoryQuery => Resolved (Some Inputs.scenario_B) None in
  let rendered :=
    setDateRange (""%string, "2024-05-01"%string)
      (setSelectedVehicle "7f9c2a" (Inputs.initial (num := exact))) in
  historyQuery Browser.Date_parse Browser.Brasilia rendered = None
  /\ step Browser.Date_parse Browser.Brasilia rendered (SelectionEffect server rendered)
     = rendered.
Proof.
  apply (@invalid_date_sends_no_query R exact Browser.Date_parse Browser.Brasilia
           (fun _ => Resolved (Some Inputs.scenario_B) None)
           (setDateRange (""%string, "2024-05-01"%string)
              (setSelectedVehicle "7f9c2a" Inputs.initial))).
  left. reflexivity.
Defined.

End HistoryExamples.

(** ** The page inside the application *)

(** X9: the application shows the history page exactly when the session
    has loaded, a user is signed in and the active view is ['history'].  The
    history page is therefore mounted with a user only: its [fetchVehicles]
    always runs to its [finally], and the spinner ends when the vehicles
    query settles, whatever it gives. *)
Theorem history_page_is_mounted_with_a_user :
  forall user sessionLoading activeView,
    (App.AppContent user sessionLoading activeView = App.HistoryPage
     <-> sessionLoading = false /\ (exists u, user = Some u)
         /\ activeView = "history"%string)
    /\ (App.AppContent user sessionLoading activeView = App.HistoryPage ->
        forall (A : Type) settled (rendered st : State A),
          loading (fetchVehicles user settled rendered st) = false
          /\ view (fetchVehicles user settled rendered st) <> Spinner).
Proof.
  intros user sessionLoading activeView.
  assert (Hiff : App.AppContent user sessionLoading activeView = App.HistoryPage
                 <-> sessionLoading = false /\ (exists u, user = Some u)
                     /\ activeView = "history"%string).
  { unfold App.AppContent, App.renderView. split.
    - destruct sessionLoading; [discriminate|].
      destruct user as [u|]; [|discriminate].
      intros H. split; [reflexivity|]. split; [exists u; reflexivity|].
      destruct (String.eqb_spec activeView "dashboard"); [discriminate|].
      destruct (String.eqb_spec activeView "vehicles"); [discriminate|].
      destruct (String.eqb_spec activeView "tracking"); [discriminate|].
      destruct (String.eqb_spec activeView "history"); [assumption|].
      destruct (String.eqb_spec activeView "alerts"); [discriminate|].
      destruct (String.eqb_spec activeView "settings"); discriminate.
    - intros (-> & [u ->] & ->). reflexivity. }
  split; [exact Hiff|].
  intros H A settled rendered st. apply Hiff in H. destruct H as (_ & [u ->] & _).
  assert (Hl : loading (fetchVehicles (Some u) settled rendered st) = false).
  { unfold fetchVehicles. reflexivity. }
  split; [exact Hl|].
  unfold view. rewrite Hl.
  destruct (vehicles (fetchVehicles (Some u) settled rendered st)); discriminate.
Qed.

(** ** More on [calculateStats] *)

Section Growth.
Context {A : Type} {num : Number A}.

Lemma last_cons {X : Type} (x : X) l d d' : last (x :: l) d = last (x :: l) d'.
Proof.
  revert x. induction l as [|y l IH]; intros x; [reflexivity|].
  change (last (x :: y :: l) d) with (last (y :: l) d).
  change (last (x :: y :: l) d') with (last (y :: l) d').
  apply IH.
Qed.

Lemma walk_snoc : forall rest (prev r : TrackingRecord A) total,
  walk prev (rest ++ [r]) total
  = (walk prev rest total + pairDistance r (last rest prev))%js.
Proof.
  induction rest as [|x rest IH]; intros prev r total; [reflexivity|].
  cbn [app walk]. rewrite IH. f_equal. f_equal.
  destruct rest as [|y rest]; [reflexivity|].
  change (last (x :: y :: rest) prev) with (last (y :: rest) prev).
  apply last_cons.
Qed.

(** X10: in every number system (bit for bit in binary64, whatever the
    engine), one more row at the end of a non-empty array adds 1 to
    [totalRecords] and adds to [totalDistance], as the last term of the
    sum, the distance from the row that was last to the new row: the total
    of the longer array is the total of the array plus that distance. *)
Theorem one_more_row :
  forall (r0 : TrackingRecord A) rest r st,
    let before := stats (calculateStats (r0 :: rest) st) in
    let after := stats (calculateStats ((r0 :: rest) ++ [r]) st) in
    totalRecords after = S (totalRecords before)
    /\ totalDistance after
       = (totalDistance before + pairDistance r (last rest r0))%js.
Proof.
  intros r0 rest r st. cbv zeta. cbn [app].
  rewrite !stats_nonempty. cbn [totalRecords totalDistance]. split.
  - rewrite length_app. cbn [List.length]. lia.
  - apply walk_snoc.
Qed.

End Growth.

Section OneRow.

Lemma max_of_one (s : float) : Binary64.max [s] = s.
Proof.
  unfold Binary64.max. cbn [fold_left].
  apply Prim2SF_inj. rewrite Binary64Facts.max_step_spec.
  change (Prim2SF neg_infinity) with (S754_infinity true).
  destruct (Prim2SF s) as [[|]|[|]| |[|] m e]; reflexivity.
Qed.

(** X13: an array of one row.  In binary64, on every engine,
    [totalRecords] is 1, [maxSpeed] is the speed of the row, whatever number
    it is, and [totalDistance] is 0: the loop does not run.  In exact
    arithmetic [avgSpeed] is that speed too. *)
Theorem one_row :
  (forall m (r : TrackingRecord float) st,
     let s := stats (calculateStats (num := binary64 m) [r] st) in
     totalRecords s = 1%nat /\ maxSpeed s = speed r /\ totalDistance s = 0%float)
  /\ (forall (r : TrackingRecord R) st,
        stats (calculateStats (num := exact) [r] st)
        = {| totalRecords := 1; avgSpeed := speed r; maxSpeed := speed r;
             totalDistance := 0%R |}).
Proof.
  split.
  - intros m r st. cbv zeta. rewrite stats_nonempty.
    cbn [totalRecords maxSpeed totalDistance walk map Math_max binary64].
    repeat split. apply max_of_one.
  - intros r st. rewrite stats_nonempty.
    cbn [List.length map fold_left walk Math_max exact Exact.max add div of_Z Z.of_nat
         Pos.of_succ_nat].
    f_equal. field.
Qed.

End OneRow.

(** ** The spinner and the cell of the heading *)

Section Spinner.
Context {A : Type} {num : Number A}.

Lemma step_keeps_loaded Date_parse LocalTZA (st : State A) e :
  loading st = false -> loading (step Date_parse LocalTZA st e) = false.
Proof.
  intros Hl.
  destruct e as [user settled rendered|server rendered|value|value rendered|value rendered];
    cbn [step]; try exact Hl.
  - destruct user as [u|]; [reflexivity|exact Hl].
  - destruct (truthy (selectedVehicle rendered)); [|exact Hl].
    destruct (fetchHistory_cases Date_parse LocalTZA server rendered st)
      as [->|[records ->]]; [exact Hl|].
    destruct (calculateStats_frame records (setHistory records st)) as (_ & _ & _ & _ & H).
    rewrite H. exact Hl.
Qed.

(** X14: the spinner is shown until the first vehicles query settles and
    never again: once [loading] is false, nothing that happens to the page
    sets it again, so a history query that is on its way is not announced,
    and the page shows the rows of the query before until the answer
    arrives. *)
Theorem spinner_never_returns :
  forall Date_parse LocalTZA (events : list (Event A)) (st : State A),
    loading st = false ->
    loading (run Date_parse LocalTZA events st) = false
    /\ view (run Date_parse LocalTZA events st) <> Spinner.
Proof.
  intros Date_parse LocalTZA events st Hl.
  assert (H : loading (run Date_parse LocalTZA events st) = false).
  { unfold run. revert st Hl.
    induction events as [|e events IH]; intros st Hl; [exact Hl|].
    cbn [fold_left]. apply IH. apply step_keeps_loaded. exact Hl. }
  split; [exact H|].
  unfold view. rewrite H.
  destruct (vehicles (run Date_parse LocalTZA events st)); discriminate.
Qed.

End Spinner.

Section SpinnerExamples.
#[local] Existing Instance exact.

Lemma spinner_never_returns_witness :
  let st := fetchVehicles (Some Browser.user_1)
              (Resolved (Some [Browser.vehicle_1]) None) Inputs.initial Inputs.initial in
  let events :=
    [ SelectionEffect (fun _ => Resolved (Some Inputs.scenario_B) None) st;
      VehicleChanged "b3d410";
      UserEffect (Some Browser.user_1) (Rejected "Failed to fetch") st ] in
  loading (run Browser.Date_parse Browser.Brasilia events st) = false
  /\ view (run Browser.Date_parse Browser.Brasilia events st) <> Spinner.
Proof.
  apply (@spinner_never_returns R exact Browser.Date_parse Browser.Brasilia).
  reflexivity.
Defined.

End SpinnerExamples.

Section Heading.

Lemma eqb_zero x :
  PrimFloat.eqb x 0%float = true -> x = 0%float \/ x = (-0)%float.
Proof.
  rewrite FloatAxioms.eqb_spec. change (Prim2SF 0) with (S754_zero false).
  destruct (Prim2SF x) as [[|]|[|]| |[|] m e] eqn:E; intros H; try discriminate H.
  - right. apply Prim2SF_inj. rewrite E. reflexivity.
  - left. apply Prim2SF_inj. rewrite E. reflexivity.
Qed.

Lemma is_nan_nan x : PrimFloat.is_nan x = true -> x = PrimFloat.nan.
Proof.
  rewrite Binary64Facts.is_nan_spec. intros H. apply Prim2SF_inj.
  destruct (Prim2SF x); try discriminate H. reflexivity.
Qed.

(** X15: the cell of the heading shows a dash exactly when the heading is
    missing, zero (of either sign) or NaN: a heading of 0 degrees, due
    north, is shown like a missing heading.  Every heading above 0 is shown
    in degrees. *)
Theorem heading_north_is_a_dash :
  forall record : TrackingRecord float,
    (Row.headingCell record = Row.Dash
     <-> heading record = None \/ heading record = Some 0%float
         \/ heading record = Some (-0)%float \/ heading record = Some PrimFloat.nan)
    /\ (forall h, heading record = Some h -> PrimFloat.ltb 0 h = true ->
                  Row.headingCell record = Row.Degrees h).
Proof.
  intros record. unfold Row.headingCell, Row.ToBoolean. split.
  - destruct (heading record) as [h|]; [|split; auto].
    destruct (PrimFloat.is_nan h) eqn:Hn; cbn [orb negb].
    + apply is_nan_nan in Hn. subst h. split; auto.
    + destruct (PrimFloat.eqb h 0) eqn:Hz; cbn [negb].
      * destruct (eqb_zero Hz) as [-> | ->]; split; auto.
      * split; [discriminate|].
        intros [H|[H|[H|H]]]; try discriminate H; injection H as ->; discriminate.
  - intros h -> Hpos.
    assert (Hn : PrimFloat.is_nan h = false).
    { destruct (PrimFloat.is_nan h) eqn:Hn; [|reflexivity].
      apply is_nan_nan in Hn. subst h. discriminate Hpos. }
    assert (Hz : PrimFloat.eqb h 0 = false).
    { destruct (PrimFloat.eqb h 0) eqn:Hz; [|reflexivity].
      destruct (eqb_zero Hz) as [-> | ->]; discriminate Hpos. }
    rewrite Hn, Hz. reflexivity.
Qed.

End Heading.

(** ** The date range of the first render *)

Section FirstRange.
Context {A : Type}.
Local Open Scope Z_scope.

(** X17: the date range of the first render ends on the UTC date of the
    clock.  In a time zone of one negative offset, with an engine that reads
    its own dates back, the query then asks for no instant of the local date
    of that number; while the local date is the UTC date (in Brasilia, until
    21:00), the present instant and the whole of today lie after the end of
    the window: today's rows are not asked for. *)
Theorem today_is_not_asked_for :
  forall Date_parse LocalTZA isoDate tza now1 now2 (rendered : State A),
    (forall t b, LocalTZA t b = tza) ->
    - Date.msPerDay <= tza < 0 ->
    dateRange rendered = initialDateRange isoDate now1 now2 ->
    Date_parse (isoDate (now1 - 7 * 24 * 60 * 60 * 1000))
    = Some (Date.Day (now1 - 7 * 24 * 60 * 60 * 1000) * Date.msPerDay) ->
    Date_parse (isoDate now2) = Some (Date.Day now2 * Date.msPerDay) ->
    0 <= now1 <= 8640000000000000 - 3 * Date.msPerDay ->
    0 <= now2 <= 8640000000000000 - 3 * Date.msPerDay ->
    exists query,
      historyQuery Date_parse LocalTZA rendered = Some query
      /\ (forall t, gte_timestamp query <= t <= lte_timestamp query ->
                    Date.Day (t + tza) < Date.Day now2)
      /\ (Date.Day (now2 + tza) = Date.Day now2 -> lte_timestamp query < now2).
Proof.
  intros Date_parse LocalTZA isoDate tza now1 now2 rendered Hz Htza Hr HS HE Hn1 Hn2.
  assert (Hk : tza / Date.msPerDay = -1)
    by (unfold Date.msPerDay in *; Z.div_mod_to_equations; lia).
  assert (HdS : Z.abs (Date.Day (now1 - 7 * 24 * 60 * 60 * 1000)) <= 99999997).
  { unfold Date.Day, Date.msPerDay in *. Z.div_mod_to_equations. lia. }
  assert (HdE : Z.abs (Date.Day now2) <= 99999997).
  { unfold Date.Day, Date.msPerDay in *. Z.div_mod_to_equations. lia. }
  unfold initialDateRange in Hr.
  assert (HS' : Date_parse (fst (dateRange rendered))
                = Some (Date.Day (now1 - 7 * 24 * 60 * 60 * 1000) * Date.msPerDay))
    by (rewrite Hr; exact HS).
  assert (HE' : Date_parse (snd (dateRange rendered))
                = Some (Date.Day now2 * Date.msPerDay))
    by (rewrite Hr; exact HE).
  assert (Htza' : - Date.msPerDay <= tza < Date.msPerDay)
    by (unfold Date.msPerDay in *; lia).
  eexists. split; [|split].
  - apply (@DateFacts.historyQuery_bounds A Date_parse LocalTZA tza _ _ rendered
             Hz HS' HE' Htza' HdS HdE).
  - intros t. cbn [gte_timestamp lte_timestamp]. rewrite Hk. intros [_ Ht].
    unfold Date.Day, Date.msPerDay in *. Z.div_mod_to_equations. lia.
  - cbn [lte_timestamp]. rewrite Hk.
    unfold Date.Day, Date.msPerDay in *. Z.div_mod_to_equations. lia.
Qed.

End FirstRange.

Section FirstRangeExamples.
Local Open Scope Z_scope.
#[local] Existing Instance exact.

(** 2024-05-01 at 10:00 in Brasilia: 13:00 UTC. *)
Lemma today_is_not_asked_for_witness :
  let now := 19844 * Date.msPerDay + 13 * Date.msPerHour in
  let rendered :=
    setSelectedVehicle "7f9c2a"
      (initialState (fst (initialDateRange Browser.isoDate now now))
                    (snd (initialDateRange Browser.isoDate now now))) in
  exists query,
    historyQuery Browser.Date_parse Browser.Brasilia rendered = Some query
    /\ (forall t, gte_timestamp query <= t <= lte_timestamp query ->
                  Date.Day (t + -10800000) < Date.Day now)
    /\ (Date.Day (now + -10800000) = Date.Day now -> lte_timestamp query < now).
Proof.
  apply (@today_is_not_asked_for R Browser.Date_parse Browser.Brasilia Browser.isoDate
           (-10800000)
           (19844 * Date.msPerDay + 13 * Date.msPerHour)
           (19844 * Date.msPerDay + 13 * Date.msPerHour)).
  - reflexivity.
  - unfold Date.msPerDay. lia.
  - reflexivity.
  - reflexivity.
  - reflexivity.
  - unfold Date.msPerDay, Date.msPerHour. lia.
  - unfold Date.msPerDay, Date.msPerHour. lia.
Defined.

End FirstRangeExamples.

(** ** Examples of the page inside the application and of the cell *)

Section LastExamples.
#[local] Existing Instance exact.

Lemma history_page_is_mounted_with_a_user_witness :
  loading (fetchVehicles (Some Browser.user_1) (Rejected "Failed to fetch")
             Inputs.initial Inputs.initial) = false
  /\ view (fetchVehicles (Some Browser.user_1) (Rejected "Failed to fetch")
             Inputs.initial Inputs.initial) <> Spinner.
Proof.
  apply (proj2 (history_page_is_mounted_with_a_user (Some Browser.user_1) false "history")).
  reflexivity.
Defined.

Lemma heading_north_is_a_dash_witness :
  let record :=
    {| id := "r-1"; latitude := (-23.5505)%float; longitude := (-46.6333)%float;
       speed := 40%float; timestamp := "2024-05-01T12:00:00+00:00";
       heading := Some 90%float |} in
  Row.headingCell record = Row.Degrees 90%float.
Proof.
  apply (proj2 (heading_north_is_a_dash
                  {| id := "r-1"; latitude := (-23.5505)%float;
                     longitude := (-46.6333)%float; speed := 40%float;
                     timestamp := "2024-05-01T12:00:00+00:00";
                     heading := Some 90%float |})).
  - reflexivity.
  - reflexivity.
Defined.

End LastExamples.

(** ** The fields that [calculateStats] reads *)

Section FieldsRead.
Context {A : Type} {num : Number A}.

Lemma pairDistance_coordinates (p q p' q' : TrackingRecord A) :
  (latitude p, longitude p) = (latitude p', longitude p') ->
  (latitude q, longitude q) = (latitude q', longitude q') ->
  pairDistance p q = pairDistance p' q'.
Proof.
  intros Hp Hq. injection Hp as Hp1 Hp2. injection Hq as Hq1 Hq2.
  unfold pairDistance, haversineA. rewrite Hp1, Hp2, Hq1, Hq2. reflexivity.
Qed.

Lemma walk_coordinates : forall rest rest' (prev prev' : TrackingRecord A) total,
  (latitude prev, longitude prev) = (latitude prev', longitude prev') ->
  map (fun r => (latitude r, longitude r)) rest
  = map (fun r => (latitude r, longitude r)) rest' ->
  walk prev rest total = walk prev' rest' total.
Proof.
  induction rest as [|r rest IH]; intros [|r' rest'] prev prev' total Hprev Hrest;
    try discriminate Hrest; [reflexivity|].
  cbn [map] in Hrest. injection Hrest as Hr1 Hr2 Hrest.
  cbn [walk].
  rewrite (@pairDistance_coordinates r prev r' prev')
    by (first [assumption | rewrite Hr1, Hr2; reflexivity]).
  apply IH; [rewrite Hr1, Hr2; reflexivity | exact Hrest].
Qed.

(** X18: in every number system, [calculateStats] reads the latitude, the
    longitude and the speed of the rows and nothing else: two arrays with
    the same coordinates, row by row, have the same [totalDistance], and two
    arrays with the same speeds, row by row, have the same [totalRecords],
    [avgSpeed] and [maxSpeed].  The timestamps, the headings and the ids of
    the rows play no part; in particular the rows are not put in the order
    of their timestamps. *)
Theorem figures_read_three_fields :
  forall (records records' : list (TrackingRecord A)) st st',
    (map (fun r => (latitude r, longitude r)) records
     = map (fun r => (latitude r, longitude r)) records' ->
     totalDistance (stats (calculateStats records st))
     = totalDistance (stats (calculateStats records' st')))
    /\ (map speed records = map speed records' ->
        totalRecords (stats (calculateStats records st))
        = totalRecords (stats (calculateStats records' st'))
        /\ avgSpeed (stats (calculateStats records st))
           = avgSpeed (stats (calculateStats records' st'))
        /\ maxSpeed (stats (calculateStats records st))
           = maxSpeed (stats (calculateStats records' st'))).
Proof.
  intros records records' st st'. split.
  - intros H. destruct records as [|r0 rest], records' as [|r0' rest'];
      try discriminate H; [reflexivity|].
    rewrite !stats_nonempty. cbn [totalDistance].
    cbn [map] in H. injection H as H1 H2 H.
    apply walk_coordinates; [rewrite H1, H2; reflexivity | exact H].
  - intros H. destruct records as [|r0 rest], records' as [|r0' rest'];
      try discriminate H; [repeat split|].
    rewrite !stats_nonempty. cbn [totalRecords avgSpeed maxSpeed].
    assert (Hlen : List.length rest = List.length rest').
    { apply (f_equal (@List.length A)) in H. rewrite !length_map in H.
      cbn [List.length] in H. lia. }
    rewrite H, Hlen. repeat split.
Qed.

End FieldsRead.

Section FieldsReadExamples.
#[local] Existing Instance exact.

Lemma figures_read_three_fields_witness :
  let records :=
    [ Inputs.sample 0%R 1%R 40%R "2024-05-01T12:01:00+00:00";
      Inputs.sample 0%R 0%R 40%R "2024-05-01T12:00:00+00:00" ] in
  let records' :=
    [ Inputs.sample 0%R 1%R 40%R "2024-05-01T10:00:00+00:00";
      Inputs.sample 0%R 0%R 40%R "2024-05-01T11:00:00+00:00" ] in
  totalDistance (stats (calculateStats records Inputs.initial))
  = totalDistance (stats (calculateStats records' Inputs.initial)).
Proof.
  apply (proj1 (figures_read_three_fields
                  [ Inputs.sample 0%R 1%R 40%R "2024-05-01T12:01:00+00:00";
                    Inputs.sample 0%R 0%R 40%R "2024-05-01T12:00:00+00:00" ]
                  [ Inputs.sample 0%R 1%R 40%R "2024-05-01T10:00:00+00:00";
                    Inputs.sample 0%R 0%R 40%R "2024-05-01T11:00:00+00:00" ]
                  Inputs.initial Inputs.initial)).
  reflexivity.
Defined.

End FieldsReadExamples.
